(** * Confidence scoring of the plant-disease diagnosis engine

    A shallow embedding of [scripts/diagnose.py]: the embedding length
    fix-up of [generate_clip_embedding], [calculate_symptom_overlap],
    [calculate_seasonal_relevance], [calculate_confidence_metrics] and the
    result assembly of [diagnose_plant_disease], followed by the properties
    the specification states about them.

    Modelling conventions.
    - Python floats are exact rationals ([Q]); the one non-finite value the
      code builds, [float('inf')], is a constructor of its own ([Inf]).
      Rounding is not modelled.
    - Python text is a [string] of ASCII characters.
    - Python dictionaries built by the code are association lists in
      insertion order ([pydict]); sets of words are [gset string].
    - A candidate is a mapping whose five fields are each absent or of
      their declared type; [Nullable] gives the same functions over rows in
      which a field can also be present with the value [None].
    - Exceptions are explicit: every operation that can raise returns a
      [pyresult]. *)

From Stdlib Require Import QArith Lia Lqa Ascii String.
From stdpp Require Import gmap strings list.

Local Open Scope string_scope.
#[local] Set Warnings "-clear-no-such-hyp".

(** ** Exceptions *)

Inductive pyexc : Type :=
| ZeroDivisionError
| IndexError
| KeyError (key : string)
| AttributeError.

Inductive pyresult (A : Type) : Type :=
| Ok (a : A)
| Raise (e : pyexc).
Arguments Ok {A} a.
Arguments Raise {A} e.

Definition pybind {A B : Type} (m : pyresult A) (k : A -> pyresult B) : pyresult B :=
  match m with
  | Ok a => k a
  | Raise e => Raise e
  end.

Notation "'let*' x ':=' m 'in' k" := (pybind m (fun x => k))
  (at level 10, x name, m at level 100, k at level 200).

(** ** Values *)

(** A float: a finite value, or [float('inf')]. *)
Inductive pyfloat : Type :=
| Fin (q : Q)
| Inf.

(** The values that occur in the dictionaries the code returns. *)
#[local] Set Warnings "-register-all".
Inductive pyval : Type :=
| PyBool (b : bool)
| PyFloat (x : pyfloat)
| PyStr (s : string)
| PyList (l : list pyval)
| PyDict (d : list (string * pyval)).

Abbreviation pydict := (list (string * pyval)).

(** [d.get(key)] *)
Fixpoint dict_get (key : string) (d : pydict) : option pyval :=
  match d with
  | [] => None
  | (k, v) :: d' => if String.eqb k key then Some v else dict_get key d'
  end.

(** [d.get(key, dflt)] *)
Definition dict_get_default (key : string) (dflt : pyval) (d : pydict) : pyval :=
  default dflt (dict_get key d).

(** [d[key]] *)
Definition dict_getitem (key : string) (d : pydict) : pyresult pyval :=
  match dict_get key d with
  | Some v => Ok v
  | None => Raise (KeyError key)
  end.

(** [d[key] = v]: an existing key keeps its position, a new key goes last. *)
Fixpoint dict_setitem (key : string) (v : pyval) (d : pydict) : pydict :=
  match d with
  | [] => [(key, v)]
  | (k, w) :: d' =>
      if String.eqb k key then (k, v) :: d' else (k, w) :: dict_setitem key v d'
  end.

(** [d[key].append(v)]: the list stored under [key] is extended in place. *)
Definition dict_append (key : string) (v : pyval) (d : pydict) : pyresult pydict :=
  let* l := dict_getitem key d in
  match l with
  | PyList items => Ok (dict_setitem key (PyList (items ++ [v])) d)
  | _ => Raise AttributeError
  end.

(** [l[i]] for [0 <= i] *)
Definition list_getitem {A : Type} (l : list A) (i : nat) : pyresult A :=
  match nth_error l i with
  | Some a => Ok a
  | None => Raise IndexError
  end.

(** [a / b] *)
Definition pydiv (a b : Q) : pyresult Q :=
  if Qeq_bool b 0 then Raise ZeroDivisionError else Ok (a / b)%Q.

(** [sum(l)] *)
Definition pysum (l : list Q) : Q := fold_left Qplus l 0%Q.

(** [x > 0] *)
Definition Qpositive (x : Q) : bool := negb (Qle_bool x 0).

(** ** Text *)

Module PyStr.

Definition char_lower (c : ascii) : ascii :=
  let n := N_of_ascii c in
  if ((65 <=? n) && (n <=? 90))%N then ascii_of_N (n + 32) else c.

(** [s.lower()] *)
Fixpoint lower (s : string) : string :=
  match s with
  | EmptyString => EmptyString
  | String c s' => String (char_lower c) (lower s')
  end.

(** [s.replace(old, new)] for one-character [old] and [new] *)
Fixpoint replace (old new : ascii) (s : string) : string :=
  match s with
  | EmptyString => EmptyString
  | String c s' =>
      String (if Ascii.eqb c old then new else c) (replace old new s')
  end.

(** The ASCII characters [str.split] treats as white space. *)
Definition isspace (c : ascii) : bool :=
  let n := N_of_ascii c in
  (((9 <=? n) && (n <=? 13)) || ((28 <=? n) && (n <=? 32)))%N.

Definition flush (cur : string) : list string :=
  match cur with
  | EmptyString => []
  | _ => [cur]
  end.

Fixpoint split_go (cur : string) (s : string) : list string :=
  match s with
  | EmptyString => flush cur
  | String c s' =>
      if isspace c then flush cur ++ split_go EmptyString s'
      else split_go (cur ++ String c EmptyString) s'
  end.

(** [s.split()] *)
Definition split (s : string) : list string := split_go EmptyString s.

(** [not s] *)
Definition is_empty (s : string) : bool :=
  match s with
  | EmptyString => true
  | _ => false
  end.

End PyStr.

(** ** Symptom overlap *)

Definition common_words : gset string :=
  list_to_set ["and"; "or"; "the"; "in"; "on"; "at"; "to"; "of"; "with"; "may"; "can"].

Definition process_symptoms (symptoms : string) : gset string :=
  let words : gset string :=
    list_to_set
      (PyStr.split
         (PyStr.replace "." " " (PyStr.replace "," " " (PyStr.lower symptoms)))) in
  words ∖ common_words.

(** [not s] for a set *)
Definition set_is_empty (s : gset string) : bool := bool_decide (s = ∅).

Definition calculate_symptom_overlap
    (primary_symptoms alternative_symptoms : string) : pyresult Q :=
  if PyStr.is_empty primary_symptoms || PyStr.is_empty alternative_symptoms
  then Ok 0%Q
  else
    let primary_set := process_symptoms primary_symptoms in
    let alternative_set := process_symptoms alternative_symptoms in
    if set_is_empty primary_set || set_is_empty alternative_set
    then Ok 0%Q
    else
      let overlap := size (primary_set ∩ alternative_set) in
      let total := size (primary_set ∪ alternative_set) in
      if (0 <? total)%nat
      then pydiv (inject_Z (Z.of_nat overlap)) (inject_Z (Z.of_nat total))
      else Ok 0%Q.

(** ** Seasonal relevance *)

Record seasonal_pattern : Type := {
  peak_months : list Z;
  moderate_months : list Z
}.

Definition seasonal_patterns : gmap string seasonal_pattern :=
  list_to_map
    [ ("bacterial spot",
        {| peak_months := [6; 7; 8]; moderate_months := [5; 9] |}%Z);
      ("early blight",
        {| peak_months := [7; 8]; moderate_months := [6; 9] |}%Z);
      ("late blight",
        {| peak_months := [8; 9]; moderate_months := [7; 10] |}%Z);
      ("leaf mold",
        {| peak_months := [6; 7; 8; 9]; moderate_months := [5; 10] |}%Z);
      ("septoria leaf spot",
        {| peak_months := [7; 8]; moderate_months := [6; 9] |}%Z) ].

(** [current_month] stands for [datetime.now().month]. *)
Definition calculate_seasonal_relevance (current_month : Z) (disease_name : string) : Q :=
  match seasonal_patterns !! PyStr.lower disease_name with
  | None => (1 # 2)%Q
  | Some pattern =>
      if bool_decide (current_month ∈ peak_months pattern) then 1%Q
      else if bool_decide (current_month ∈ moderate_months pattern) then (7 # 10)%Q
      else (3 # 10)%Q
  end.

(** ** Candidates *)

(** One record returned by the similarity search.  Every field is read
    with [dict.get], so each one may be absent ([None]). *)
Record Candidate : Type := {
  disease_name : option string;
  similarity : option Q;
  description : option string;
  symptoms : option string;
  recommendation : option string
}.

(** [d.get("similarity", 0.0)] *)
Definition get_similarity (d : Candidate) : Q := default 0%Q (similarity d).

(** ** Confidence metrics *)

(** The loop over [similar_diseases[1:]]. *)
Fixpoint append_overlaps (primary_symptoms : string) (others : list Candidate)
    (metrics : pydict) : pyresult pydict :=
  match others with
  | [] => Ok metrics
  | disease :: others' =>
      let* overlap :=
        calculate_symptom_overlap primary_symptoms (default "" (symptoms disease)) in
      let* metrics :=
        dict_append "symptom_overlap"
          (PyDict [ ("disease", PyStr (default "Unknown" (disease_name disease)));
                    ("overlap_score", PyFloat (Fin overlap)) ])
          metrics in
      append_overlaps primary_symptoms others' metrics
  end.

Definition calculate_confidence_metrics (current_month : Z)
    (similar_diseases : list Candidate) : pyresult pydict :=
  match similar_diseases with
  | [] => Ok []
  | _ :: _ =>
      let confidences := map get_similarity similar_diseases in
      let* primary_confidence := list_getitem confidences 0 in
      let metrics : pydict :=
        [ ("absolute_confidence", PyFloat (Fin primary_confidence));
          ("relative_confidence", PyFloat (Fin 0));
          ("confidence_margin", PyFloat (Fin 0));
          ("diagnosis_clarity", PyFloat (Fin 0));
          ("symptom_overlap", PyList []);
          ("seasonal_relevance", PyFloat (Fin 0)) ] in
      if (1 <? length confidences)%nat then
        let* second := list_getitem confidences 1 in
        let* relative :=
          if Qpositive second
          then (let* r := pydiv primary_confidence second in Ok (Fin r))
          else Ok Inf in
        let metrics := dict_setitem "relative_confidence" (PyFloat relative) metrics in
        let metrics :=
          dict_setitem "confidence_margin"
            (PyFloat (Fin (primary_confidence - second))) metrics in
        let* avg_other_confidence :=
          pydiv (pysum (drop 1 confidences))
                (inject_Z (Z.of_nat (length (drop 1 confidences)))) in
        let* clarity :=
          if Qpositive primary_confidence
          then pydiv (primary_confidence - avg_other_confidence) primary_confidence
          else Ok 0%Q in
        let metrics := dict_setitem "diagnosis_clarity" (PyFloat (Fin clarity)) metrics in
        let* first := list_getitem similar_diseases 0 in
        let primary_symptoms := default "" (symptoms first) in
        let* metrics := append_overlaps primary_symptoms (drop 1 similar_diseases) metrics in
        let* first := list_getitem similar_diseases 0 in
        Ok (dict_setitem "seasonal_relevance"
              (PyFloat (Fin (calculate_seasonal_relevance current_month
                               (default "" (disease_name first)))))
              metrics)
      else Ok metrics
  end.

(** ** Assembling the diagnosis *)

Definition alternative_entry (disease : Candidate) : pyval :=
  PyDict [ ("disease_name", PyStr (default "Unknown Disease" (disease_name disease)));
           ("confidence", PyFloat (Fin (get_similarity disease)));
           ("description",
             PyStr (default "No description available" (description disease))) ].

(** The three calls to outside services are arguments:
    [clip_load_error] is [Some details] when [clip.load] raises,
    [embedding] is what [generate_clip_embedding] returns, and
    [similar_diseases] is what [find_similar_diseases] returns. *)
Definition diagnose_plant_disease (current_month : Z)
    (clip_load_error : option string) (embedding : option (list Q))
    (similar_diseases : list Candidate) : pyresult pyval :=
  match clip_load_error with
  | Some details =>
      Ok (PyDict [ ("success", PyBool false);
                   ("error", PyStr "Failed to load CLIP model");
                   ("details", PyStr details) ])
  | None =>
  match embedding with
  | None =>
      Ok (PyDict [ ("success", PyBool false);
                   ("error", PyStr "Failed to generate image embedding") ])
  | Some _ =>
  match similar_diseases with
  | [] =>
      Ok (PyDict [ ("success", PyBool false);
                   ("error", PyStr "No similar diseases found") ])
  | _ :: _ =>
      let* confidence_metrics :=
        calculate_confidence_metrics current_month similar_diseases in
      let* first := list_getitem similar_diseases 0 in
      Ok (PyDict
        [ ("success", PyBool true);
          ("diagnosis", PyDict
            [ ("primary_disease",
                PyStr (default "Unknown Disease" (disease_name first)));
              ("confidence", PyFloat (Fin (get_similarity first)));
              ("description",
                PyStr (default "No description available" (description first)));
              ("symptoms",
                PyStr (default "No symptoms information available" (symptoms first)));
              ("recommendation",
                PyStr (default "No recommendations available" (recommendation first)));
              ("confidence_metrics", PyDict
                [ ("relative_confidence",
                    dict_get_default "relative_confidence" (PyFloat (Fin 0))
                      confidence_metrics);
                  ("confidence_margin",
                    dict_get_default "confidence_margin" (PyFloat (Fin 0))
                      confidence_metrics);
                  ("diagnosis_clarity",
                    dict_get_default "diagnosis_clarity" (PyFloat (Fin 0))
                      confidence_metrics);
                  ("symptom_overlap",
                    dict_get_default "symptom_overlap" (PyList [])
                      confidence_metrics);
                  ("seasonal_relevance",
                    dict_get_default "seasonal_relevance" (PyFloat (Fin 0))
                      confidence_metrics) ]) ]);
          ("alternative_diagnoses",
            PyList (map alternative_entry (drop 1 similar_diseases))) ])
  end end end.

(** ** Embedding length *)

(** [np.pad(v, (0, n))]: [n] zeros after the last element. *)
Definition np_pad_right (v : list Q) (n : nat) : list Q := v ++ repeat 0%Q n.

(** The "ensure 768 dimensions" step of [generate_clip_embedding], with
    the expected length as a parameter. *)
Definition ensure_dimensions (dim : nat) (embedding : list Q) : list Q :=
  if negb (length embedding =? dim)%nat then
    if (length embedding <? dim)%nat
    then np_pad_right embedding (dim - length embedding)
    else take dim embedding
  else embedding.

(** [image_features] is the encoded image, [None] when the image cannot
    be loaded or encoded. *)
Definition generate_clip_embedding (image_features : option (list Q)) : option (list Q) :=
  match image_features with
  | None => None
  | Some embedding => Some (ensure_dimensions 768 embedding)
  end.

(** [result[k1][k2]...]: follow a path of keys through nested dictionaries. *)
Fixpoint dict_path (path : list string) (v : pyval) : option pyval :=
  match path with
  | [] => Some v
  | key :: path' =>
      match v with
      | PyDict d =>
          match dict_get key d with
          | Some w => dict_path path' w
          | None => None
          end
      | _ => None
      end
  end.

(** The order in which the similarity search returns its candidates. *)
Fixpoint sorted_descending (candidates : list Candidate) : bool :=
  match candidates with
  | a :: (b :: _) as others =>
      Qle_bool (get_similarity b) (get_similarity a) && sorted_descending others
  | _ => true
  end.

(** A candidate with every field absent. *)
Definition empty_candidate : Candidate :=
  {| disease_name := None; similarity := None; description := None;
     symptoms := None; recommendation := None |}.

Definition cand (name : string) (sim : Q) (sym : string) : Candidate :=
  {| disease_name := Some name; similarity := Some sim; description := None;
     symptoms := Some sym; recommendation := None |}.

(** ** Callers: the HTTP route and the test script *)

(** The callers can also fail with a [TypeError] or a [ValueError]. *)
Inductive pyerror : Type :=
| FromCore (e : pyexc)
| TypeError
| ValueError.

Inductive outcome (A : Type) : Type :=
| Done (a : A)
| Failed (e : pyerror).
Arguments Done {A} a.
Arguments Failed {A} e.

Definition obind {A B : Type} (m : outcome A) (k : A -> outcome B) : outcome B :=
  match m with
  | Done a => k a
  | Failed e => Failed e
  end.

Notation "'let+' x ':=' m 'in' k" := (obind m (fun x => k))
  (at level 10, x name, m at level 100, k at level 200).

Definition lift {A : Type} (m : pyresult A) : outcome A :=
  match m with
  | Ok a => Done a
  | Raise e => Failed (FromCore e)
  end.

(** [v[key]] for a text key *)
Definition subscript (key : string) (v : pyval) : outcome pyval :=
  match v with
  | PyDict d => lift (dict_getitem key d)
  | _ => Failed TypeError
  end.

(** [v[key] = w] for a text key *)
Definition subscript_assign (key : string) (w : pyval) (v : pyval) : outcome pyval :=
  match v with
  | PyDict d => Done (PyDict (dict_setitem key w d))
  | _ => Failed TypeError
  end.

(** The truth value of [v] in an [if]. *)
Definition truthy (v : pyval) : bool :=
  match v with
  | PyBool b => b
  | PyFloat (Fin q) => negb (Qeq_bool q 0)
  | PyFloat Inf => true
  | PyStr s => negb (PyStr.is_empty s)
  | PyList l => match l with [] => false | _ => true end
  | PyDict d => match d with [] => false | _ => true end
  end.

(** Whether [f"{v:.2f}"] can be built. *)
Definition format_2f (v : pyval) : outcome unit :=
  match v with
  | PyBool _ | PyFloat _ => Done tt
  | PyStr _ => Failed ValueError
  | PyList _ | PyDict _ => Failed TypeError
  end.

(** [v.lower()] *)
Definition lower_of (v : pyval) : outcome string :=
  match v with
  | PyStr s => Done (PyStr.lower s)
  | _ => Failed (FromCore AttributeError)
  end.

(** [a in b] for two texts: [a] occurs in [b]. *)
Fixpoint str_in (a b : string) : bool :=
  String.prefix a b
  || match b with
     | EmptyString => false
     | String _ b' => str_in a b'
     end.

(** What the handler of [POST /diagnose] hands back. *)
Inductive http_outcome : Type :=
| Returned (body : pyval)
| HTTPException (status_code : Z) (detail : pyerror).

(** The handler of [POST /diagnose]; [timestamp] stands for
    [datetime.now().isoformat()], the other arguments are those of
    [diagnose_plant_disease]. *)
Definition diagnose (timestamp : string) (current_month : Z)
    (clip_load_error : option string) (embedding : option (list Q))
    (similar_diseases : list Candidate) : http_outcome :=
  let attempt :=
    let+ result :=
      lift (diagnose_plant_disease current_month clip_load_error embedding
              similar_diseases) in
    subscript_assign "timestamp" (PyStr timestamp) result in
  match attempt with
  | Done result => Returned result
  | Failed e => HTTPException 500 e
  end.

(** One entry of the test script's [results]. *)
Record test_result : Type := {
  expected : string;
  predicted : pyval;
  confidence : pyval;
  correct : bool
}.

(** The loop of [test_diagnosis] over the test cases; each case comes with
    the result [diagnose_plant_disease] returned for its image. *)
Fixpoint run_test_cases (cases : list (string * pyval)) (results : list test_result)
    : outcome (list test_result) :=
  match cases with
  | [] => Done results
  | (expected_disease, result) :: cases' =>
      let+ success := subscript "success" result in
      if truthy success then
        let+ diagnosis := subscript "diagnosis" result in
        let+ _ := subscript "primary_disease" diagnosis in
        let+ shown := subscript "confidence" diagnosis in
        let+ _ := format_2f shown in
        let+ _ := subscript "description" diagnosis in
        let+ name := subscript "primary_disease" diagnosis in
        let+ conf := subscript "confidence" diagnosis in
        let+ name' := subscript "primary_disease" diagnosis in
        let+ lowered := lower_of name' in
        run_test_cases cases'
          (results ++ [ {| expected := expected_disease;
                           predicted := name;
                           confidence := conf;
                           correct := str_in (PyStr.lower expected_disease) lowered |} ])
      else run_test_cases cases' results
  end.

(** The loop that logs the detailed results. *)
Fixpoint log_results (results : list test_result) : outcome unit :=
  match results with
  | [] => Done tt
  | r :: results' =>
      let+ _ := format_2f (confidence r) in
      log_results results'
  end.

(** [test_diagnosis]: the results and the accuracy in percent that the
    summary logs. *)
Definition test_diagnosis (cases : list (string * pyval))
    : outcome (list test_result * Q) :=
  let+ results := run_test_cases cases [] in
  let n_correct := length (filter (fun r => correct r = true) results) in
  let total := length results in
  let+ ratio := lift (pydiv (inject_Z (Z.of_nat n_correct)) (inject_Z (Z.of_nat total))) in
  let accuracy := (ratio * 100)%Q in
  let+ _ := log_results results in
  Done (results, accuracy).

(** ** The test script's reference rows *)

(** A row of the table [disease_reference_images]. *)
Record disease_row : Type := {
  row_disease_name : string;
  row_description : string;
  row_symptoms : string;
  row_recommendation : string;
  row_image_url : string
}.

(** [table.select("id").eq("disease_name", name)]: the rows with that name. *)
Definition select_by_name (name : string) (table : list disease_row) : list disease_row :=
  filter (fun row => row_disease_name row = name) table.

(** [table.insert(row)] *)
Definition insert_row (row : disease_row) (table : list disease_row) : list disease_row :=
  table ++ [row].

(** The loop of [add_test_diseases_to_db], with the table as state. *)
Fixpoint add_diseases (diseases : list disease_row) (table : list disease_row)
    : list disease_row :=
  match diseases with
  | [] => table
  | disease :: diseases' =>
      match select_by_name (row_disease_name disease) table with
      | [] => add_diseases diseases' (insert_row disease table)
      | _ :: _ => add_diseases diseases' table
      end
  end.

Definition test_diseases : list disease_row :=
  [ {| row_disease_name := "Tomato Early Blight";
       row_description := "A fungal disease caused by Alternaria solani that affects tomato leaves, stems, and fruits.";
       row_symptoms := "Dark brown spots with concentric rings, yellowing around spots, older leaves affected first.";
       row_recommendation := "Remove affected leaves, improve air circulation, apply fungicide if severe.";
       row_image_url := "https://raw.githubusercontent.com/plantvillage/PlantVillage-Dataset/master/raw/color/Tomato_Early_blight.JPG" |};
    {| row_disease_name := "Tomato Late Blight";
       row_description := "A devastating water mold disease caused by Phytophthora infestans.";
       row_symptoms := "Dark brown to black lesions on leaves, white fuzzy growth underneath, rapid spread.";
       row_recommendation := "Remove infected plants, improve drainage, use protective fungicides.";
       row_image_url := "https://raw.githubusercontent.com/plantvillage/PlantVillage-Dataset/master/raw/color/Tomato_Late_blight.JPG" |};
    {| row_disease_name := "Tomato Leaf Mold";
       row_description := "A fungal disease caused by Passalora fulva that primarily affects greenhouse tomatoes.";
       row_symptoms := "Yellow to brown spots on leaves, fuzzy growth on underside, leaves eventually die.";
       row_recommendation := "Improve ventilation, reduce humidity, remove affected leaves, apply fungicide.";
       row_image_url := "https://raw.githubusercontent.com/plantvillage/PlantVillage-Dataset/master/raw/color/Tomato_Leaf_Mold.JPG" |};
    {| row_disease_name := "Tomato Septoria Leaf Spot";
       row_description := "A fungal disease caused by Septoria lycopersici that affects tomato leaves.";
       row_symptoms := "Small, circular spots with gray centers and dark borders, leaves turn yellow and drop.";
       row_recommendation := "Remove infected leaves, improve air circulation, apply fungicide, rotate crops.";
       row_image_url := "https://raw.githubusercontent.com/plantvillage/PlantVillage-Dataset/master/raw/color/Tomato_Septoria_leaf_spot.JPG" |};
    {| row_disease_name := "Healthy";
       row_description := "A healthy tomato plant with no signs of disease.";
       row_symptoms := "None - plant is healthy.";
       row_recommendation := "Continue regular maintenance and monitoring.";
       row_image_url := "https://raw.githubusercontent.com/plantvillage/PlantVillage-Dataset/master/raw/color/Tomato_healthy.JPG" |} ].

(** [add_test_diseases_to_db], as a function of the table's rows. *)
Definition add_test_diseases_to_db (table : list disease_row) : list disease_row :=
  add_diseases test_diseases table.

(** ** Rows with null columns *)

(** The same functions over rows in which a field can also be present with
    the value [None] (a NULL column).  [dict.get] returns such a [None]
    instead of the default. *)
Module Nullable.

Inductive field (A : Type) : Type :=
| Missing
| Null
| Value (a : A).
Arguments Missing {A}.
Arguments Null {A}.
Arguments Value {A} a.

Record Candidate : Type := {
  disease_name : field string;
  similarity : field Q;
  description : field string;
  symptoms : field string;
  recommendation : field string
}.

(** [d.get(key, dflt)]; the result [None] is Python's [None]. *)
Definition get {A : Type} (f : field A) (dflt : A) : option A :=
  match f with
  | Missing => Some dflt
  | Null => None
  | Value a => Some a
  end.

(** Values that can also be [None]. *)
Inductive pyany : Type :=
| ANone
| ABool (b : bool)
| AFloat (x : pyfloat)
| AStr (s : string)
| AList (l : list pyany)
| ADict (d : list (string * pyany)).

Definition of_float (x : option Q) : pyany :=
  match x with
  | Some q => AFloat (Fin q)
  | None => ANone
  end.

Definition of_str (s : option string) : pyany :=
  match s with
  | Some s => AStr s
  | None => ANone
  end.

Fixpoint dict_get (key : string) (d : list (string * pyany)) : option pyany :=
  match d with
  | [] => None
  | (k, v) :: d' => if String.eqb k key then Some v else dict_get key d'
  end.

Definition dict_get_default (key : string) (dflt : pyany) (d : list (string * pyany))
    : pyany :=
  default dflt (dict_get key d).

Fixpoint dict_setitem (key : string) (v : pyany) (d : list (string * pyany))
    : list (string * pyany) :=
  match d with
  | [] => [(key, v)]
  | (k, w) :: d' =>
      if String.eqb k key then (k, v) :: d' else (k, w) :: dict_setitem key v d'
  end.

Definition dict_append (key : string) (v : pyany) (d : list (string * pyany))
    : outcome (list (string * pyany)) :=
  match dict_get key d with
  | None => Failed (FromCore (KeyError key))
  | Some (AList items) => Done (dict_setitem key (AList (items ++ [v])) d)
  | Some _ => Failed (FromCore AttributeError)
  end.

(** [x > 0] *)
Definition gt_zero (x : option Q) : outcome bool :=
  match x with
  | Some q => Done (Qpositive q)
  | None => Failed TypeError
  end.

(** [a / b] *)
Definition div (a b : option Q) : outcome Q :=
  match a, b with
  | Some a, Some b => lift (pydiv a b)
  | _, _ => Failed TypeError
  end.

(** [a - b] *)
Definition sub (a b : option Q) : outcome Q :=
  match a, b with
  | Some a, Some b => Done (a - b)%Q
  | _, _ => Failed TypeError
  end.

(** [sum(l)], from the accumulator [acc] *)
Fixpoint sum_from (acc : Q) (l : list (option Q)) : outcome Q :=
  match l with
  | [] => Done acc
  | Some x :: l' => sum_from (acc + x)%Q l'
  | None :: _ => Failed TypeError
  end.

(** [not a or not b] holds for a [None] argument. *)
Definition calculate_symptom_overlap (primary_symptoms alternative_symptoms : option string)
    : outcome Q :=
  match primary_symptoms, alternative_symptoms with
  | Some a, Some b => lift (calculate_symptom_overlap a b)
  | _, _ => Done 0%Q
  end.

(** [disease_name.lower()] raises for [None]. *)
Definition calculate_seasonal_relevance (current_month : Z) (disease_name : option string)
    : outcome Q :=
  match disease_name with
  | Some name => Done (calculate_seasonal_relevance current_month name)
  | None => Failed (FromCore AttributeError)
  end.

Fixpoint append_overlaps (primary_symptoms : option string) (others : list Candidate)
    (metrics : list (string * pyany)) : outcome (list (string * pyany)) :=
  match others with
  | [] => Done metrics
  | disease :: others' =>
      let+ overlap :=
        calculate_symptom_overlap primary_symptoms (get (symptoms disease) "") in
      let+ metrics :=
        dict_append "symptom_overlap"
          (ADict [ ("disease", of_str (get (disease_name disease) "Unknown"));
                   ("overlap_score", AFloat (Fin overlap)) ])
          metrics in
      append_overlaps primary_symptoms others' metrics
  end.

Definition calculate_confidence_metrics (current_month : Z)
    (similar_diseases : list Candidate) : outcome (list (string * pyany)) :=
  match similar_diseases with
  | [] => Done []
  | _ :: _ =>
      let confidences := map (fun d => get (similarity d) 0%Q) similar_diseases in
      let+ primary_confidence := lift (list_getitem confidences 0) in
      let metrics : list (string * pyany) :=
        [ ("absolute_confidence", of_float primary_confidence);
          ("relative_confidence", AFloat (Fin 0));
          ("confidence_margin", AFloat (Fin 0));
          ("diagnosis_clarity", AFloat (Fin 0));
          ("symptom_overlap", AList []);
          ("seasonal_relevance", AFloat (Fin 0)) ] in
      if (1 <? length confidences)%nat then
        let+ second := lift (list_getitem confidences 1) in
        let+ second_positive := gt_zero second in
        let+ relative :=
          if second_positive
          then (let+ r := div primary_confidence second in Done (Fin r))
          else Done Inf in
        let metrics := dict_setitem "relative_confidence" (AFloat relative) metrics in
        let+ margin := sub primary_confidence second in
        let metrics := dict_setitem "confidence_margin" (AFloat (Fin margin)) metrics in
        let+ total := sum_from 0%Q (drop 1 confidences) in
        let+ avg_other_confidence :=
          lift (pydiv total (inject_Z (Z.of_nat (length (drop 1 confidences))))) in
        let+ primary_positive := gt_zero primary_confidence in
        let+ clarity :=
          if primary_positive
          then (let+ gap := sub primary_confidence (Some avg_other_confidence) in
                div (Some gap) primary_confidence)
          else Done 0%Q in
        let metrics := dict_setitem "diagnosis_clarity" (AFloat (Fin clarity)) metrics in
        let+ first := lift (list_getitem similar_diseases 0) in
        let primary_symptoms := get (symptoms first) "" in
        let+ metrics := append_overlaps primary_symptoms (drop 1 similar_diseases) metrics in
        let+ first := lift (list_getitem similar_diseases 0) in
        let+ seasonal :=
          calculate_seasonal_relevance current_month (get (disease_name first) "") in
        Done (dict_setitem "seasonal_relevance" (AFloat (Fin seasonal)) metrics)
      else Done metrics
  end.

Definition alternative_entry (disease : Candidate) : pyany :=
  ADict [ ("disease_name", of_str (get (disease_name disease) "Unknown Disease"));
          ("confidence", of_float (get (similarity disease) 0%Q));
          ("description",
            of_str (get (description disease) "No description available")) ].

Definition diagnose_plant_disease (current_month : Z)
    (clip_load_error : option string) (embedding : option (list Q))
    (similar_diseases : list Candidate) : outcome pyany :=
  match clip_load_error with
  | Some details =>
      Done (ADict [ ("success", ABool false);
                    ("error", AStr "Failed to load CLIP model");
                    ("details", AStr details) ])
  | None =>
  match embedding with
  | None =>
      Done (ADict [ ("success", ABool false);
                    ("error", AStr "Failed to generate image embedding") ])
  | Some _ =>
  match similar_diseases with
  | [] =>
      Done (ADict [ ("success", ABool false);
                    ("error", AStr "No similar diseases found") ])
  | _ :: _ =>
      let+ confidence_metrics :=
        calculate_confidence_metrics current_month similar_diseases in
      let+ first := lift (list_getitem similar_diseases 0) in
      Done (ADict
        [ ("success", ABool true);
          ("diagnosis", ADict
            [ ("primary_disease", of_str (get (disease_name first) "Unknown Disease"));
              ("confidence", of_float (get (similarity first) 0%Q));
              ("description",
                of_str (get (description first) "No description available"));
              ("symptoms",
                of_str (get (symptoms first) "No symptoms information available"));
              ("recommendation",
                of_str (get (recommendation first) "No recommendations available"));
              ("confidence_metrics", ADict
                [ ("relative_confidence",
                    dict_get_default "relative_confidence" (AFloat (Fin 0))
                      confidence_metrics);
                  ("confidence_margin",
                    dict_get_default "confidence_margin" (AFloat (Fin 0))
                      confidence_metrics);
                  ("diagnosis_clarity",
                    dict_get_default "diagnosis_clarity" (AFloat (Fin 0))
                      confidence_metrics);
                  ("symptom_overlap",
                    dict_get_default "symptom_overlap" (AList [])
                      confidence_metrics);
                  ("seasonal_relevance",
                    dict_get_default "seasonal_relevance" (AFloat (Fin 0))
                      confidence_metrics) ]) ]);
          ("alternative_diagnoses",
            AList (map alternative_entry (drop 1 similar_diseases))) ])
  end end end.

(** A row without null columns, from a candidate of the first model. *)
Definition of_option {A : Type} (o : option A) : field A :=
  match o with
  | Some a => Value a
  | None => Missing
  end.

End Nullable.

(** The candidate as a row: an absent field is a missing key. *)
Definition to_row (c : Candidate) : Nullable.Candidate :=
  {| Nullable.disease_name := Nullable.of_option (disease_name c);
     Nullable.similarity := Nullable.of_option (similarity c);
     Nullable.description := Nullable.of_option (description c);
     Nullable.symptoms := Nullable.of_option (symptoms c);
     Nullable.recommendation := Nullable.of_option (recommendation c) |}.

(** A value of the first model among the values that can be [None]. *)
Fixpoint to_any (v : pyval) : Nullable.pyany :=
  match v with
  | PyBool b => Nullable.ABool b
  | PyFloat x => Nullable.AFloat x
  | PyStr s => Nullable.AStr s
  | PyList l => Nullable.AList (map to_any l)
  | PyDict d => Nullable.ADict (map (fun kv => (fst kv, to_any (snd kv))) d)
  end.

(** The outcome of the first model among the outcomes of the second. *)
Definition to_outcome {A B : Type} (f : A -> B) (r : pyresult A) : outcome B :=
  match r with
  | Ok a => Done (f a)
  | Raise e => Failed (FromCore e)
  end.

(** ** Notions used in the statements *)

(** The score [calculate_symptom_overlap] returns; it never raises. *)
Definition overlap_score (a b : string) : Q :=
  match calculate_symptom_overlap a b with
  | Ok x => x
  | Raise _ => 0%Q
  end.

(** The entry the loop appends for one alternative. *)
Definition overlap_entry (primary_symptoms : string) (disease : Candidate) : pyval :=
  PyDict [ ("disease", PyStr (default "Unknown" (disease_name disease)));
           ("overlap_score",
             PyFloat (Fin (overlap_score primary_symptoms
                             (default "" (symptoms disease))))) ].

(** [primary / second if second > 0 else float('inf')] *)
Definition relative_of (primary second : Q) : pyfloat :=
  if Qpositive second then Fin (primary / second) else Inf.

(** [sum(confidences) / len(confidences)] over a non-empty list *)
Definition mean_similarity (others : list Candidate) : Q :=
  (pysum (map get_similarity others) / inject_Z (Z.of_nat (length others)))%Q.

Definition clarity_of (primary : Q) (others : list Candidate) : Q :=
  if Qpositive primary
  then ((primary - mean_similarity others) / primary)%Q
  else 0%Q.



(** The body of the test script's loop for one test case. *)
Definition test_case_step (expected_disease : string) (result : pyval)
    (results : list test_result) : outcome (list test_result) :=
  let+ success := subscript "success" result in
  if truthy success then
    let+ diagnosis := subscript "diagnosis" result in
    let+ _ := subscript "primary_disease" diagnosis in
    let+ shown := subscript "confidence" diagnosis in
    let+ _ := format_2f shown in
    let+ _ := subscript "description" diagnosis in
    let+ name := subscript "primary_disease" diagnosis in
    let+ conf := subscript "confidence" diagnosis in
    let+ name' := subscript "primary_disease" diagnosis in
    let+ lowered := lower_of name' in
    Done (results ++ [ {| expected := expected_disease;
                          predicted := name;
                          confidence := conf;
                          correct := str_in (PyStr.lower expected_disease) lowered |} ])%list
  else Done results.

(** Whether a result reports a success. *)
Definition succeeded (result : pyval) : bool :=
  match dict_path ["success"] result with
  | Some v => truthy v
  | None => false
  end.

(** A result that [diagnose_plant_disease] returns for candidates whose
    fields are each absent or of their declared type. *)
Definition diagnosed (result : pyval) : Prop :=
  exists current_month clip_load_error embedding similar_diseases,
    diagnose_plant_disease current_month clip_load_error embedding similar_diseases
    = Ok result.

(** Whether every character of the text is an ASCII character. *)
Fixpoint is_ascii (s : string) : bool :=
  match s with
  | EmptyString => true
  | String c s' => (N_of_ascii c <? 128)%N && is_ascii s'
  end.

(** [v >= bound] for a float that may be [float('inf')]. *)
Definition pyfloat_at_least (bound : Q) (v : pyfloat) : Prop :=
  match v with
  | Fin x => (bound <= x)%Q
  | Inf => True
  end.

(** * Properties *)

(** ** Sample runs *)

Example split_example :
  PyStr.split "  dark spots,yellowing " = ["dark"; "spots,yellowing"].
Proof. reflexivity. Qed.

Example overlap_example :
  calculate_symptom_overlap "Dark spots, yellowing." "dark lesions and FUZZY growth"
  = Ok (1 # 6)%Q.
Proof. vm_compute. reflexivity. Qed.

Example scenario_A_metrics :
  calculate_confidence_metrics 8
    [ cand "Early Blight" (92 # 100) "dark spots yellowing";
      cand "Late Blight" (61 # 100) "dark lesions fuzzy growth" ]
  = Ok [ ("absolute_confidence", PyFloat (Fin (92 # 100)));
         ("relative_confidence", PyFloat (Fin (9200 # 6100)));
         ("confidence_margin", PyFloat (Fin (3100 # 10000)));
         ("diagnosis_clarity", PyFloat (Fin (310000 # 920000)));
         ("symptom_overlap",
           PyList [ PyDict [ ("disease", PyStr "Late Blight");
                             ("overlap_score", PyFloat (Fin (1 # 6))) ] ]);
         ("seasonal_relevance", PyFloat (Fin 1)) ].
Proof. vm_compute. reflexivity. Qed.

(** ** Arithmetic and dictionary facts *)

Lemma pydiv_nonzero (a b : Q) : ~ (b == 0)%Q -> pydiv a b = Ok (a / b)%Q.
Proof.
  intros Hb. unfold pydiv.
  destruct (Qeq_bool b 0) eqn:E; [| reflexivity].
  apply Qeq_bool_iff in E. contradiction.
Qed.

Lemma Qpositive_true (x : Q) : Qpositive x = true <-> (0 < x)%Q.
Proof.
  unfold Qpositive. rewrite negb_true_iff. split.
  - intros E. apply Qnot_le_lt. intros H. apply Qle_bool_iff in H. congruence.
  - intros H. destruct (Qle_bool x 0) eqn:E; [| reflexivity].
    apply Qle_bool_iff in E. exfalso. exact (Qlt_not_le _ _ H E).
Qed.

Lemma Qpositive_false (x : Q) : Qpositive x = false <-> (x <= 0)%Q.
Proof.
  unfold Qpositive. rewrite negb_false_iff. apply Qle_bool_iff.
Qed.

Lemma inject_nat_nonzero (n : nat) : (0 < n)%nat -> ~ (inject_Z (Z.of_nat n) == 0)%Q.
Proof.
  intros Hn E. unfold Qeq in E. simpl in E. lia.
Qed.

Lemma dict_get_setitem_same (key : string) (v : pyval) (d : pydict) :
  dict_get key (dict_setitem key v d) = Some v.
Proof.
  induction d as [| [k w] d IH]; simpl.
  - rewrite String.eqb_refl. reflexivity.
  - destruct (String.eqb k key) eqn:E; simpl; rewrite E; [reflexivity | exact IH].
Qed.

Lemma dict_setitem_twice (key : string) (v w : pyval) (d : pydict) :
  dict_setitem key v (dict_setitem key w d) = dict_setitem key v d.
Proof.
  induction d as [| [k u] d IH]; simpl.
  - rewrite String.eqb_refl. reflexivity.
  - destruct (String.eqb k key) eqn:E; simpl; rewrite E; [reflexivity |].
    f_equal. exact IH.
Qed.

(** ** The symptom overlap scorer *)

Section Overlap.

Implicit Types a b : string.

Lemma is_empty_true a : PyStr.is_empty a = true <-> a = "".
Proof. destruct a; simpl; split; congruence. Qed.

Lemma set_is_empty_true (s : gset string) : set_is_empty s = true <-> s = ∅.
Proof. unfold set_is_empty. apply bool_decide_eq_true. Qed.

Lemma process_symptoms_empty : process_symptoms "" = ∅.
Proof. vm_compute. reflexivity. Qed.

Lemma union_size_pos (s t : gset string) : s ≠ ∅ -> (0 < size (s ∪ t))%nat.
Proof.
  intros Hs.
  assert (size s ≠ 0%nat) as H1 by (rewrite size_non_empty_iff; intros E; apply Hs; by apply leibniz_equiv).
  assert (size s <= size (s ∪ t))%nat as H2 by (apply subseteq_size; set_solver).
  lia.
Qed.

(** The value returned when both processed sets are non-empty. *)
Lemma overlap_jaccard a b :
  process_symptoms a ≠ ∅ -> process_symptoms b ≠ ∅ ->
  calculate_symptom_overlap a b
  = Ok (inject_Z (Z.of_nat (size (process_symptoms a ∩ process_symptoms b)))
        / inject_Z (Z.of_nat (size (process_symptoms a ∪ process_symptoms b))))%Q.
Proof.
  intros Ha Hb. unfold calculate_symptom_overlap.
  destruct (PyStr.is_empty a) eqn:Ea.
  { apply is_empty_true in Ea. subst a. destruct Ha. apply process_symptoms_empty. }
  destruct (PyStr.is_empty b) eqn:Eb.
  { apply is_empty_true in Eb. subst b. destruct Hb. apply process_symptoms_empty. }
  simpl orb. cbv zeta.
  destruct (set_is_empty (process_symptoms a)) eqn:Sa.
  { apply set_is_empty_true in Sa. contradiction. }
  destruct (set_is_empty (process_symptoms b)) eqn:Sb.
  { apply set_is_empty_true in Sb. contradiction. }
  simpl orb.
  pose proof (union_size_pos _ (process_symptoms b) Ha) as Hpos.
  destruct (Nat.ltb_spec 0 (size (process_symptoms a ∪ process_symptoms b))); [| lia].
  apply pydiv_nonzero. by apply inject_nat_nonzero.
Qed.

(** The value returned when an input or a processed set is empty. *)
Lemma overlap_degenerate a b :
  a = "" \/ b = "" \/ process_symptoms a = ∅ \/ process_symptoms b = ∅ ->
  calculate_symptom_overlap a b = Ok 0%Q.
Proof.
  intros H. unfold calculate_symptom_overlap.
  destruct (PyStr.is_empty a) eqn:Ea; [reflexivity |].
  destruct (PyStr.is_empty b) eqn:Eb; [reflexivity |].
  simpl orb. cbv zeta.
  destruct (set_is_empty (process_symptoms a)) eqn:Sa; [reflexivity |].
  destruct (set_is_empty (process_symptoms b)) eqn:Sb; [reflexivity |].
  exfalso. destruct H as [-> | [-> | [H | H]]].
  - discriminate Ea.
  - discriminate Eb.
  - apply set_is_empty_true in H. congruence.
  - apply set_is_empty_true in H. congruence.
Qed.

Lemma overlap_total a b : exists x, calculate_symptom_overlap a b = Ok x.
Proof.
  destruct (decide (process_symptoms a = ∅)) as [Ha | Ha].
  { eexists. apply overlap_degenerate. auto. }
  destruct (decide (process_symptoms b = ∅)) as [Hb | Hb].
  { eexists. apply overlap_degenerate. auto. }
  eexists. by apply overlap_jaccard.
Qed.

Lemma ratio_in_unit_interval (n m : nat) :
  (n <= m)%nat -> (0 < m)%nat ->
  (0 <= inject_Z (Z.of_nat n) / inject_Z (Z.of_nat m)
   /\ inject_Z (Z.of_nat n) / inject_Z (Z.of_nat m) <= 1)%Q.
Proof.
  intros Hnm Hm.
  assert (0 < inject_Z (Z.of_nat m))%Q as Hpos.
  { unfold Qlt. simpl. lia. }
  split.
  - apply Qle_shift_div_l; [exact Hpos |].
    rewrite Qmult_0_l. unfold Qle. simpl. lia.
  - apply Qle_shift_div_r; [exact Hpos |].
    rewrite Qmult_1_l. unfold Qle. simpl. lia.
Qed.

Lemma ratio_self (m : nat) :
  (0 < m)%nat -> (inject_Z (Z.of_nat m) / inject_Z (Z.of_nat m) == 1)%Q.
Proof.
  intros Hm. apply Qmult_inv_r. by apply inject_nat_nonzero.
Qed.

End Overlap.

(** C6. The symptom overlap scorer is symmetric: swapping the two texts
    gives the same result. *)
Theorem symptom_overlap_symmetric (a b : string) :
  calculate_symptom_overlap a b = calculate_symptom_overlap b a.
Proof.
  unfold calculate_symptom_overlap.
  rewrite (orb_comm (PyStr.is_empty a)).
  destruct (PyStr.is_empty b || PyStr.is_empty a); [reflexivity |].
  cbv zeta.
  rewrite (orb_comm (set_is_empty (process_symptoms a))).
  destruct (set_is_empty (process_symptoms b) || set_is_empty (process_symptoms a));
    [reflexivity |].
  generalize (process_symptoms a) (process_symptoms b). intros s t.
  assert (t ∩ s = s ∩ t) as -> by set_solver.
  assert (t ∪ s = s ∪ t) as -> by set_solver.
  reflexivity.
Qed.

(** C7. For every pair of texts the scorer returns a value between 0 and 1;
    the value is 0 when either text is empty or either processed word set is
    empty, and 1 when both texts have the same non-empty processed word set. *)
Theorem symptom_overlap_range (a b : string) :
  exists x,
    calculate_symptom_overlap a b = Ok x
    /\ (0 <= x /\ x <= 1)%Q
    /\ (a = "" \/ b = "" \/ process_symptoms a = ∅ \/ process_symptoms b = ∅ ->
        x = 0%Q)
    /\ (process_symptoms a = process_symptoms b -> process_symptoms a ≠ ∅ ->
        (x == 1)%Q).
Proof.
  destruct (decide (a = "" \/ b = "" \/ process_symptoms a = ∅ \/ process_symptoms b = ∅))
    as [Hdeg | Hnon].
  - exists 0%Q. split; [by apply overlap_degenerate |].
    split; [split; discriminate |].
    split; [reflexivity |].
    intros Heq Hne. exfalso.
    destruct Hdeg as [-> | [-> | [H | H]]].
    + apply Hne, process_symptoms_empty.
    + apply Hne. rewrite Heq. apply process_symptoms_empty.
    + contradiction.
    + apply Hne. by rewrite Heq.
  - assert (process_symptoms a ≠ ∅) as Ha by tauto.
    assert (process_symptoms b ≠ ∅) as Hb by tauto.
    eexists. split; [by apply overlap_jaccard |].
    pose proof (union_size_pos _ (process_symptoms b) Ha) as Hpos.
    split; [| split].
    + apply ratio_in_unit_interval; [| exact Hpos].
      apply subseteq_size. set_solver.
    + intros H. contradiction.
    + intros Heq _. rewrite <- Heq in *.
      revert Hpos. generalize (process_symptoms a). intros s Hpos.
      assert (s ∩ s = s) as -> by set_solver.
      assert (s ∪ s = s) as E by set_solver.
      rewrite E in *. by apply ratio_self.
Qed.

Lemma symptom_overlap_range_witness :
  (exists x, calculate_symptom_overlap "Dark spots" "spots, and DARK." = Ok x
             /\ (x == 1)%Q)
  /\ (exists x, calculate_symptom_overlap "the of" "dark spots" = Ok x /\ x = 0%Q).
Proof.
  split.
  - destruct (symptom_overlap_range "Dark spots" "spots, and DARK.")
      as (x & Hx & _ & _ & Hone).
    exists x. split; [exact Hx |].
    apply Hone.
    + vm_compute. reflexivity.
    + apply (bool_decide_unpack _). vm_compute. exact I.
  - destruct (symptom_overlap_range "the of" "dark spots")
      as (x & Hx & _ & Hzero & _).
    exists x. split; [exact Hx |].
    apply Hzero. right. right. left. vm_compute. reflexivity.
Defined.

(** ** The seasonal relevance scorer *)

Lemma seasonal_patterns_known (key : string) :
  is_Some (seasonal_patterns !! key)
  <-> key ∈ ["bacterial spot"; "early blight"; "late blight"; "leaf mold";
             "septoria leaf spot"].
Proof.
  unfold seasonal_patterns. rewrite <- elem_of_dom.
  rewrite dom_list_to_map_L. simpl. set_solver.
Qed.

(** C8. For every disease name and every month the seasonal relevance is one
    of 1.0, 0.7, 0.5 and 0.3: it is 0.5 when the lower-cased name is not in
    the seasonal table, 1.0 when the month is a peak month of the disease,
    0.7 when it is not a peak month but a moderate month, and 0.3 otherwise. *)
Theorem seasonal_relevance_cases (current_month : Z) (name : string) :
  let r := calculate_seasonal_relevance current_month name in
  (r = 1%Q \/ r = (7 # 10)%Q \/ r = (1 # 2)%Q \/ r = (3 # 10)%Q)
  /\ (seasonal_patterns !! PyStr.lower name = None -> r = (1 # 2)%Q)
  /\ (forall pattern,
        seasonal_patterns !! PyStr.lower name = Some pattern ->
        (current_month ∈ peak_months pattern -> r = 1%Q)
        /\ (current_month ∉ peak_months pattern ->
            current_month ∈ moderate_months pattern -> r = (7 # 10)%Q)
        /\ (current_month ∉ peak_months pattern ->
            current_month ∉ moderate_months pattern -> r = (3 # 10)%Q)).
Proof.
  cbv zeta. unfold calculate_seasonal_relevance.
  destruct (seasonal_patterns !! PyStr.lower name) as [pattern |].
  - repeat case_bool_decide;
      (split; [auto |]); (split; [discriminate |]);
      intros p [= <-]; repeat split; intros; try reflexivity; contradiction.
  - split; [auto |]. split; [reflexivity |]. intros p. discriminate.
Qed.

Lemma seasonal_relevance_cases_witness :
  calculate_seasonal_relevance 7 "Early Blight" = 1%Q
  /\ calculate_seasonal_relevance 6 "Early Blight" = (7 # 10)%Q
  /\ calculate_seasonal_relevance 1 "Early Blight" = (3 # 10)%Q
  /\ calculate_seasonal_relevance 7 "Tomato Early Blight" = (1 # 2)%Q.
Proof.
  pose (early := {| peak_months := [7; 8]; moderate_months := [6; 9] |}%Z).
  assert (seasonal_patterns !! PyStr.lower "Early Blight" = Some early) as Hin
    by (vm_compute; reflexivity).
  split; [| split; [| split]].
  - apply (proj2 (proj2 (seasonal_relevance_cases 7 "Early Blight")) early Hin).
    apply (bool_decide_unpack _). vm_compute. exact I.
  - apply (proj2 (proj2 (seasonal_relevance_cases 6 "Early Blight")) early Hin).
    + apply (bool_decide_unpack _). vm_compute. exact I.
    + apply (bool_decide_unpack _). vm_compute. exact I.
  - apply (proj2 (proj2 (seasonal_relevance_cases 1 "Early Blight")) early Hin).
    + apply (bool_decide_unpack _). vm_compute. exact I.
    + apply (bool_decide_unpack _). vm_compute. exact I.
  - apply (proj1 (proj2 (seasonal_relevance_cases 7 "Tomato Early Blight"))).
    vm_compute. reflexivity.
Defined.

(** ** The embedding length fix-up *)

(** C9. For every vector and every expected length the fix-up returns a
    vector of exactly that length: the vector itself when the lengths agree,
    the vector followed by zeros when it is too short, and its first
    elements when it is too long.  The code runs it with length 768. *)
Theorem ensure_dimensions_exact (dim : nat) (v : list Q) :
  length (ensure_dimensions dim v) = dim
  /\ (length v = dim -> ensure_dimensions dim v = v)
  /\ (length v < dim -> ensure_dimensions dim v = (v ++ repeat 0%Q (dim - length v))%list)
  /\ (dim < length v -> ensure_dimensions dim v = take dim v)
  /\ generate_clip_embedding (Some v) = Some (ensure_dimensions 768 v).
Proof.
  unfold ensure_dimensions, np_pad_right.
  destruct (Nat.eqb_spec (length v) dim) as [Heq | Hne]; simpl negb; cbv iota.
  - repeat split; auto; lia.
  - destruct (Nat.ltb_spec (length v) dim) as [Hlt | Hge].
    + repeat split; auto; try lia.
      rewrite length_app, repeat_length. lia.
    + repeat split; auto; try lia.
      rewrite length_take. lia.
Qed.

Lemma ensure_dimensions_exact_witness :
  ensure_dimensions 3 [1; 2; 3]%Q = [1; 2; 3]%Q
  /\ ensure_dimensions 3 [1]%Q = [1; 0; 0]%Q
  /\ ensure_dimensions 2 [1; 2; 3]%Q = [1; 2]%Q.
Proof.
  split; [| split].
  - apply (proj1 (proj2 (ensure_dimensions_exact 3 [1; 2; 3]%Q))). reflexivity.
  - apply (proj1 (proj2 (proj2 (ensure_dimensions_exact 3 [1]%Q)))). simpl. lia.
  - apply (proj1 (proj2 (proj2 (proj2 (ensure_dimensions_exact 2 [1; 2; 3]%Q))))).
    simpl. lia.
Defined.

(** ** The confidence metrics calculator *)

Lemma dict_setitem_same (key : string) (v : pyval) (d : pydict) :
  dict_get key d = Some v -> dict_setitem key v d = d.
Proof.
  induction d as [| [k w] d IH]; simpl; [discriminate |].
  destruct (String.eqb k key) eqn:E.
  - intros [= ->]. reflexivity.
  - intros H. f_equal. by apply IH.
Qed.

Lemma overlap_score_returned (a b : string) :
  calculate_symptom_overlap a b = Ok (overlap_score a b).
Proof.
  unfold overlap_score. destruct (overlap_total a b) as [x ->]. reflexivity.
Qed.

Lemma append_overlaps_closed (primary_symptoms : string) (others : list Candidate) :
  forall (metrics : pydict) (items : list pyval),
    dict_get "symptom_overlap" metrics = Some (PyList items) ->
    append_overlaps primary_symptoms others metrics
    = Ok (dict_setitem "symptom_overlap"
            (PyList (items ++ map (overlap_entry primary_symptoms) others)) metrics).
Proof.
  induction others as [| disease others IH]; intros metrics items Hget.
  - simpl. rewrite app_nil_r. f_equal. symmetry. by apply dict_setitem_same.
  - cbn [append_overlaps]. rewrite overlap_score_returned. cbn [pybind].
    unfold dict_append, dict_getitem. rewrite Hget. cbn [pybind].
    erewrite IH by apply dict_get_setitem_same.
    rewrite dict_setitem_twice, <- app_assoc. reflexivity.
Qed.

Lemma Qpositive_nonzero (x : Q) : Qpositive x = true -> ~ (x == 0)%Q.
Proof.
  intros H E. apply Qpositive_true in H. rewrite E in H.
  exact (Qlt_irrefl _ H).
Qed.

(** What the calculator returns for two or more candidates. *)
Lemma metrics_of_several (current_month : Z) (c0 c1 : Candidate) (rest : list Candidate) :
  calculate_confidence_metrics current_month (c0 :: c1 :: rest)
  = Ok [ ("absolute_confidence", PyFloat (Fin (get_similarity c0)));
         ("relative_confidence",
           PyFloat (relative_of (get_similarity c0) (get_similarity c1)));
         ("confidence_margin", PyFloat (Fin (get_similarity c0 - get_similarity c1)));
         ("diagnosis_clarity", PyFloat (Fin (clarity_of (get_similarity c0) (c1 :: rest))));
         ("symptom_overlap",
           PyList (map (overlap_entry (default "" (symptoms c0))) (c1 :: rest)));
         ("seasonal_relevance",
           PyFloat (Fin (calculate_seasonal_relevance current_month
                           (default "" (disease_name c0))))) ].
Proof.
  unfold calculate_confidence_metrics.
  cbn [map list_getitem nth_error pybind length Nat.ltb Nat.leb drop].
  assert (pydiv (pysum (get_similarity c1 :: map get_similarity rest))
                (inject_Z (Z.of_nat (S (length (map get_similarity rest)))))
          = Ok (mean_similarity (c1 :: rest))) as Havg.
  { rewrite pydiv_nonzero by (apply inject_nat_nonzero; lia).
    unfold mean_similarity. cbn [map length]. by rewrite length_map. }
  unfold relative_of, clarity_of.
  destruct (Qpositive (get_similarity c1)) eqn:E1;
    destruct (Qpositive (get_similarity c0)) eqn:E0;
    rewrite ?(pydiv_nonzero _ _ (Qpositive_nonzero _ E1));
    cbn [pybind]; rewrite Havg; cbn [pybind];
    rewrite ?(pydiv_nonzero _ _ (Qpositive_nonzero _ E0));
    cbn [pybind];
    (erewrite append_overlaps_closed by reflexivity);
    reflexivity.
Qed.

(** What the calculator returns for a single candidate. *)
Lemma metrics_of_one (current_month : Z) (c0 : Candidate) :
  calculate_confidence_metrics current_month [c0]
  = Ok [ ("absolute_confidence", PyFloat (Fin (get_similarity c0)));
         ("relative_confidence", PyFloat (Fin 0));
         ("confidence_margin", PyFloat (Fin 0));
         ("diagnosis_clarity", PyFloat (Fin 0));
         ("symptom_overlap", PyList []);
         ("seasonal_relevance", PyFloat (Fin 0)) ].
Proof. reflexivity. Qed.

(** C3 as stated fails: for no candidates the calculator returns a mapping
    in which [absolute_confidence] is not 0.0 (the key is absent). *)
Lemma empty_metrics_not_zeroed :
  ~ (exists d,
       calculate_confidence_metrics 8 [] = Ok d
       /\ dict_get "absolute_confidence" d = Some (PyFloat (Fin 0))
       /\ dict_get "relative_confidence" d = Some (PyFloat (Fin 0))
       /\ dict_get "confidence_margin" d = Some (PyFloat (Fin 0))
       /\ dict_get "diagnosis_clarity" d = Some (PyFloat (Fin 0))
       /\ dict_get "seasonal_relevance" d = Some (PyFloat (Fin 0))
       /\ dict_get "symptom_overlap" d = Some (PyList [])).
Proof.
  intros (d & Hd & Habs & _). injection Hd as <-. discriminate Habs.
Qed.

(** C3, amended. For no candidates the calculator returns the empty mapping:
    no field is present in it, and a reader that supplies the defaults the
    assembler uses (0.0, and the empty list for [symptom_overlap]) reads 0.0
    for every numeric field and an empty [symptom_overlap]. *)
Theorem empty_metrics (current_month : Z) :
  exists d,
    calculate_confidence_metrics current_month [] = Ok d
    /\ d = []
    /\ (forall key, dict_get key d = None)
    /\ (forall key, dict_get_default key (PyFloat (Fin 0)) d = PyFloat (Fin 0))
    /\ dict_get_default "symptom_overlap" (PyList []) d = PyList [].
Proof.
  exists []. repeat split; reflexivity.
Qed.

(** C2 as stated fails: with a negative second similarity the result is not
    the quotient, and with a zero second similarity it is not a finite
    value. *)
Lemma relative_confidence_not_quotient :
  ~ (exists d q,
       calculate_confidence_metrics 8
         [cand "Early Blight" (1 # 2) "dark spots"; cand "Late Blight" (-1 # 2) "lesions"]
       = Ok d
       /\ dict_get "relative_confidence" d = Some (PyFloat (Fin q))
       /\ (q == (1 # 2) / (-1 # 2))%Q)
  /\ ~ (exists d q,
       calculate_confidence_metrics 8
         [cand "Early Blight" (1 # 2) "dark spots"; cand "Late Blight" 0 "lesions"]
       = Ok d
       /\ dict_get "relative_confidence" d = Some (PyFloat (Fin q))).
Proof.
  split.
  - intros (d & q & Hd & Hq & _). vm_compute in Hd. injection Hd as <-.
    discriminate Hq.
  - intros (d & q & Hd & Hq). vm_compute in Hd. injection Hd as <-.
    discriminate Hq.
Qed.

(** C2, amended. For two or more candidates [relative_confidence] is the
    first similarity divided by the second when the second is positive, and
    [float('inf')] when the second is zero or negative. *)
Theorem relative_confidence_rule (current_month : Z) (c0 c1 : Candidate)
    (rest : list Candidate) :
  exists d,
    calculate_confidence_metrics current_month (c0 :: c1 :: rest) = Ok d
    /\ ((0 < get_similarity c1)%Q ->
        dict_get "relative_confidence" d
        = Some (PyFloat (Fin (get_similarity c0 / get_similarity c1))))
    /\ ((get_similarity c1 <= 0)%Q ->
        dict_get "relative_confidence" d = Some (PyFloat Inf)).
Proof.
  eexists. split; [apply metrics_of_several |].
  cbn [dict_get String.eqb Ascii.eqb Bool.eqb]. unfold relative_of.
  split; intros H.
  - apply Qpositive_true in H. rewrite H. reflexivity.
  - apply Qpositive_false in H. rewrite H. reflexivity.
Qed.

Lemma relative_confidence_rule_witness :
  (exists d,
     calculate_confidence_metrics 8
       [cand "Early Blight" (92 # 100) "dark spots yellowing";
        cand "Late Blight" (61 # 100) "dark lesions fuzzy growth"] = Ok d
     /\ dict_get "relative_confidence" d = Some (PyFloat (Fin ((92 # 100) / (61 # 100)))))
  /\ (exists d,
     calculate_confidence_metrics 8
       [cand "Early Blight" (92 # 100) "dark spots yellowing";
        cand "Late Blight" (-1 # 10) "dark lesions fuzzy growth"] = Ok d
     /\ dict_get "relative_confidence" d = Some (PyFloat Inf)).
Proof.
  split.
  - destruct (relative_confidence_rule 8
                (cand "Early Blight" (92 # 100) "dark spots yellowing")
                (cand "Late Blight" (61 # 100) "dark lesions fuzzy growth") [])
      as (d & Hd & Hpos & _).
    exists d. split; [exact Hd |]. apply Hpos. reflexivity.
  - destruct (relative_confidence_rule 8
                (cand "Early Blight" (92 # 100) "dark spots yellowing")
                (cand "Late Blight" (-1 # 10) "dark lesions fuzzy growth") [])
      as (d & Hd & _ & Hneg).
    exists d. split; [exact Hd |]. apply Hneg. discriminate.
Defined.

(** C4. For two or more candidates sorted by descending similarity,
    [confidence_margin] is the first similarity minus the second, and it is
    not negative. *)
Theorem confidence_margin_sorted (current_month : Z) (c0 c1 : Candidate)
    (rest : list Candidate) :
  sorted_descending (c0 :: c1 :: rest) = true ->
  exists d,
    calculate_confidence_metrics current_month (c0 :: c1 :: rest) = Ok d
    /\ dict_get "confidence_margin" d
       = Some (PyFloat (Fin (get_similarity c0 - get_similarity c1)))
    /\ (0 <= get_similarity c0 - get_similarity c1)%Q.
Proof.
  intros Hsorted. eexists. split; [apply metrics_of_several |].
  split; [reflexivity |].
  cbn [sorted_descending] in Hsorted.
  apply andb_true_iff in Hsorted as [Hle _].
  apply Qle_bool_iff in Hle.
  unfold Qminus. apply (proj1 (Qle_minus_iff _ _)). exact Hle.
Qed.

Lemma confidence_margin_sorted_witness :
  exists d,
    calculate_confidence_metrics 8
      [cand "Early Blight" (92 # 100) "dark spots yellowing";
       cand "Late Blight" (61 # 100) "dark lesions fuzzy growth";
       cand "Leaf Mold" (61 # 100) "yellow spots"] = Ok d
    /\ dict_get "confidence_margin" d = Some (PyFloat (Fin ((92 # 100) - (61 # 100))))
    /\ (0 <= (92 # 100) - (61 # 100))%Q.
Proof.
  apply (confidence_margin_sorted 8
           (cand "Early Blight" (92 # 100) "dark spots yellowing")
           (cand "Late Blight" (61 # 100) "dark lesions fuzzy growth")
           [cand "Leaf Mold" (61 # 100) "yellow spots"]).
  reflexivity.
Defined.

(** ** The diagnosis assembler *)

Lemma calculate_confidence_metrics_total (current_month : Z) (cs : list Candidate) :
  exists d, calculate_confidence_metrics current_month cs = Ok d.
Proof.
  destruct cs as [| c0 [| c1 rest]].
  - by exists [].
  - eexists. apply metrics_of_one.
  - eexists. apply metrics_of_several.
Qed.

Lemma diagnose_plant_disease_total (current_month : Z) (clip_load_error : option string)
    (embedding : option (list Q)) (cs : list Candidate) :
  exists r, diagnose_plant_disease current_month clip_load_error embedding cs = Ok r.
Proof.
  unfold diagnose_plant_disease.
  destruct clip_load_error; [eauto |].
  destruct embedding; [| eauto].
  destruct cs as [| c0 rest]; [eauto |].
  destruct (calculate_confidence_metrics_total current_month (c0 :: rest)) as [d ->].
  cbn [pybind list_getitem nth_error]. eauto.
Qed.

(** The symptom overlap list the calculator stores, for any number of
    alternatives. *)
Lemma metrics_symptom_overlap (current_month : Z) (c0 : Candidate) (rest : list Candidate) :
  exists d,
    calculate_confidence_metrics current_month (c0 :: rest) = Ok d
    /\ dict_get "absolute_confidence" d = Some (PyFloat (Fin (get_similarity c0)))
    /\ dict_get "symptom_overlap" d
       = Some (PyList (map (overlap_entry (default "" (symptoms c0))) rest)).
Proof.
  destruct rest as [| c1 rest].
  - eexists. split; [apply metrics_of_one |]. split; reflexivity.
  - eexists. split; [apply metrics_of_several |]. split; reflexivity.
Qed.

(** C1 as stated fails: the error text of the failure result is not
    "no similar matches found". *)
Lemma no_candidates_error_text :
  ~ (exists r,
       diagnose_plant_disease 8 None (Some []) [] = Ok r
       /\ dict_path ["success"] r = Some (PyBool false)
       /\ dict_path ["error"] r = Some (PyStr "no similar matches found")
       /\ dict_path ["diagnosis"] r = None
       /\ dict_path ["alternative_diagnoses"] r = None).
Proof.
  intros (r & Hr & _ & Herr & _). injection Hr as <-. discriminate Herr.
Qed.

(** C1, amended. For no candidates the assembler returns a failure result:
    the success flag is false, the error message is exactly
    "No similar diseases found", and there is no diagnosis payload (no
    diagnosis, hence no primary disease and no confidence metrics, and no
    alternatives). *)
Theorem no_candidates_failure (current_month : Z) (embedding : list Q) :
  exists r,
    diagnose_plant_disease current_month None (Some embedding) [] = Ok r
    /\ r = PyDict [ ("success", PyBool false);
                    ("error", PyStr "No similar diseases found") ]
    /\ dict_path ["success"] r = Some (PyBool false)
    /\ dict_path ["error"] r = Some (PyStr "No similar diseases found")
    /\ dict_path ["diagnosis"] r = None
    /\ dict_path ["alternative_diagnoses"] r = None.
Proof.
  eexists. split; [reflexivity |]. repeat split; reflexivity.
Qed.

(** C5. For exactly one candidate the calculator sets [absolute_confidence]
    to the candidate's similarity, leaves [relative_confidence],
    [confidence_margin], [diagnosis_clarity] and [seasonal_relevance] at 0.0
    and [symptom_overlap] empty; the assembled result is a success whose
    confidence metrics are all at these defaults and whose
    [alternative_diagnoses] is empty. *)
Theorem single_candidate (current_month : Z) (embedding : list Q) (c : Candidate) :
  exists d r,
    calculate_confidence_metrics current_month [c] = Ok d
    /\ diagnose_plant_disease current_month None (Some embedding) [c] = Ok r
    /\ (forall s, similarity c = Some s ->
        dict_get "absolute_confidence" d = Some (PyFloat (Fin s)))
    /\ dict_get "relative_confidence" d = Some (PyFloat (Fin 0))
    /\ dict_get "confidence_margin" d = Some (PyFloat (Fin 0))
    /\ dict_get "diagnosis_clarity" d = Some (PyFloat (Fin 0))
    /\ dict_get "seasonal_relevance" d = Some (PyFloat (Fin 0))
    /\ dict_get "symptom_overlap" d = Some (PyList [])
    /\ dict_path ["success"] r = Some (PyBool true)
    /\ dict_path ["diagnosis"; "confidence_metrics"] r
       = Some (PyDict [ ("relative_confidence", PyFloat (Fin 0));
                        ("confidence_margin", PyFloat (Fin 0));
                        ("diagnosis_clarity", PyFloat (Fin 0));
                        ("symptom_overlap", PyList []);
                        ("seasonal_relevance", PyFloat (Fin 0)) ])
    /\ dict_path ["alternative_diagnoses"] r = Some (PyList []).
Proof.
  eexists. eexists.
  split; [apply metrics_of_one |].
  split; [reflexivity |].
  split; [| repeat split; reflexivity].
  intros s Hs. cbn [dict_get String.eqb Ascii.eqb Bool.eqb].
  unfold get_similarity. rewrite Hs. reflexivity.
Qed.

Lemma single_candidate_witness :
  exists d r,
    calculate_confidence_metrics 8 [cand "Healthy" (99 # 100) "none"] = Ok d
    /\ diagnose_plant_disease 8 None (Some []) [cand "Healthy" (99 # 100) "none"] = Ok r
    /\ dict_get "absolute_confidence" d = Some (PyFloat (Fin (99 # 100)))
    /\ dict_path ["alternative_diagnoses"] r = Some (PyList []).
Proof.
  destruct (single_candidate 8 [] (cand "Healthy" (99 # 100) "none"))
    as (d & r & Hd & Hr & Habs & _ & _ & _ & _ & _ & _ & _ & Halt).
  exists d, r. repeat split; [exact Hd | exact Hr | | exact Halt].
  apply Habs. reflexivity.
Defined.

(** ** Missing candidate fields *)

Section Invariance.

Variable f : Candidate -> Candidate.
Hypothesis f_similarity : forall c, get_similarity (f c) = get_similarity c.
Hypothesis f_symptoms : forall c, default "" (symptoms (f c)) = default "" (symptoms c).
Hypothesis f_name : forall c, disease_name (f c) = disease_name c.




End Invariance.



Lemma lookup_map {A B : Type} (g : A -> B) (l : list A) (i : nat) (a : A) :
  l !! i = Some a -> map g l !! i = Some (g a).
Proof.
  revert i. induction l as [| x l IH]; intros [| i]; simpl; try discriminate.
  - intros [= ->]. reflexivity.
  - apply IH.
Qed.




(** * Further properties of the code *)

(** ** The embedding length fix-up, element by element *)

Lemma lookup_repeat_zero (n i : nat) :
  (i < n)%nat -> repeat 0%Q n !! i = Some 0%Q.
Proof.
  revert i. induction n as [| n IH]; intros [| i] Hi; simpl; try lia; [reflexivity |].
  apply IH. lia.
Qed.

Lemma ensure_dimensions_length (dim : nat) (v : list Q) :
  length (ensure_dimensions dim v) = dim.
Proof.
  unfold ensure_dimensions, np_pad_right.
  destruct (Nat.eqb_spec (length v) dim); simpl negb; cbv iota; [assumption |].
  destruct (Nat.ltb_spec (length v) dim).
  - rewrite length_app, repeat_length. lia.
  - rewrite length_take. lia.
Qed.

(** X1. Position [i] of the fixed-up embedding holds the input's element
    [i] when the input has one, 0 when the input is too short, and nothing
    from the expected length on. *)
Theorem ensure_dimensions_lookup (dim : nat) (v : list Q) (i : nat) :
  ensure_dimensions dim v !! i
  = if (i <? dim)%nat then Some (default 0%Q (v !! i)) else None.
Proof.
  destruct (Nat.ltb_spec i dim) as [Hi | Hi].
  - unfold ensure_dimensions, np_pad_right.
    destruct (Nat.eqb_spec (length v) dim) as [Heq | Hne]; simpl negb; cbv iota.
    + destruct (lookup_lt_is_Some_2 v i) as [x Hx]; [lia |]. by rewrite Hx.
    + destruct (Nat.ltb_spec (length v) dim) as [Hlt | Hge].
      * destruct (Nat.lt_ge_cases i (length v)) as [Hin | Hout].
        -- rewrite lookup_app_l by exact Hin.
           destruct (lookup_lt_is_Some_2 v i Hin) as [x Hx]. by rewrite Hx.
        -- rewrite lookup_app_r by exact Hout.
           rewrite (lookup_ge_None_2 v i Hout). simpl.
           apply lookup_repeat_zero. lia.
      * rewrite lookup_take_lt by exact Hi.
        destruct (lookup_lt_is_Some_2 v i) as [x Hx]; [lia |]. by rewrite Hx.
  - apply lookup_ge_None_2. rewrite ensure_dimensions_length. exact Hi.
Qed.

(** X2. Fixing up an embedding twice is the same as fixing it up once. *)
Theorem ensure_dimensions_idempotent (dim : nat) (v : list Q) :
  ensure_dimensions dim (ensure_dimensions dim v) = ensure_dimensions dim v.
Proof.
  unfold ensure_dimensions at 1.
  rewrite ensure_dimensions_length, Nat.eqb_refl. reflexivity.
Qed.

(** ** Text normalisation in the symptom overlap scorer *)

Lemma char_lower_idemp (c : ascii) :
  PyStr.char_lower (PyStr.char_lower c) = PyStr.char_lower c.
Proof. destruct c as [[] [] [] [] [] [] [] []]; reflexivity. Qed.

Lemma char_lower_comma (c : ascii) :
  PyStr.char_lower (if Ascii.eqb c "," then " " else c)
  = (if Ascii.eqb (PyStr.char_lower c) "," then " " else PyStr.char_lower c)%char.
Proof. destruct c as [[] [] [] [] [] [] [] []]; reflexivity. Qed.

Lemma char_lower_period (c : ascii) :
  PyStr.char_lower (if Ascii.eqb c "." then " " else c)
  = (if Ascii.eqb (PyStr.char_lower c) "." then " " else PyStr.char_lower c)%char.
Proof. destruct c as [[] [] [] [] [] [] [] []]; reflexivity. Qed.

Lemma char_comma_period (c : ascii) :
  (if Ascii.eqb (if Ascii.eqb c "." then " " else c) "," then " "
   else if Ascii.eqb c "." then " " else c)%char
  = (if Ascii.eqb (if Ascii.eqb c "," then " " else c) "." then " "
     else if Ascii.eqb c "," then " " else c)%char.
Proof. destruct c as [[] [] [] [] [] [] [] []]; reflexivity. Qed.

Lemma char_replace_idemp (old c : ascii) :
  Ascii.eqb " " old = false ->
  (if Ascii.eqb (if Ascii.eqb c old then " " else c) old then " "
   else if Ascii.eqb c old then " " else c)%char
  = (if Ascii.eqb c old then " " else c)%char.
Proof.
  intros Hold. destruct (Ascii.eqb c old) eqn:E.
  - rewrite Hold. reflexivity.
  - rewrite E. reflexivity.
Qed.

Lemma lower_idemp (s : string) : PyStr.lower (PyStr.lower s) = PyStr.lower s.
Proof. induction s as [| c s IH]; simpl; [reflexivity |]. by rewrite char_lower_idemp, IH. Qed.

Lemma lower_replace_comma (s : string) :
  PyStr.lower (PyStr.replace "," " " s) = PyStr.replace "," " " (PyStr.lower s).
Proof. induction s as [| c s IH]; simpl; [reflexivity |]. by rewrite char_lower_comma, IH. Qed.

Lemma lower_replace_period (s : string) :
  PyStr.lower (PyStr.replace "." " " s) = PyStr.replace "." " " (PyStr.lower s).
Proof. induction s as [| c s IH]; simpl; [reflexivity |]. by rewrite char_lower_period, IH. Qed.

Lemma replace_comma_period (s : string) :
  PyStr.replace "," " " (PyStr.replace "." " " s)
  = PyStr.replace "." " " (PyStr.replace "," " " s).
Proof. induction s as [| c s IH]; simpl; [reflexivity |]. by rewrite char_comma_period, IH. Qed.

Lemma replace_idemp (old : ascii) (s : string) :
  Ascii.eqb " " old = false ->
  PyStr.replace old " " (PyStr.replace old " " s) = PyStr.replace old " " s.
Proof.
  intros Hold. induction s as [| c s IH]; simpl; [reflexivity |].
  by rewrite char_replace_idemp, IH.
Qed.

Lemma process_symptoms_lower (a : string) :
  process_symptoms (PyStr.lower a) = process_symptoms a.
Proof. unfold process_symptoms. by rewrite lower_idemp. Qed.

Lemma process_symptoms_comma (a : string) :
  process_symptoms (PyStr.replace "," " " a) = process_symptoms a.
Proof.
  unfold process_symptoms.
  rewrite lower_replace_comma, replace_idemp by reflexivity. reflexivity.
Qed.

Lemma process_symptoms_period (a : string) :
  process_symptoms (PyStr.replace "." " " a) = process_symptoms a.
Proof.
  unfold process_symptoms.
  rewrite lower_replace_period, replace_comma_period, replace_idemp by reflexivity.
  reflexivity.
Qed.

Lemma overlap_same_words (a a' b : string) :
  PyStr.is_empty a' = PyStr.is_empty a ->
  process_symptoms a' = process_symptoms a ->
  calculate_symptom_overlap a' b = calculate_symptom_overlap a b.
Proof.
  intros He Hp. unfold calculate_symptom_overlap. rewrite He, Hp. reflexivity.
Qed.

(** X3. The overlap score ignores letter case and commas: lowering a text,
    or replacing its commas by spaces, does not change its score against
    any other text.  For a text of ASCII characters, replacing its periods
    by spaces does not change the score either. *)
Theorem symptom_overlap_ignores_case_and_punctuation (a b : string) :
  calculate_symptom_overlap (PyStr.lower a) b = calculate_symptom_overlap a b
  /\ calculate_symptom_overlap (PyStr.replace "," " " a) b
     = calculate_symptom_overlap a b
  /\ (is_ascii a = true ->
      calculate_symptom_overlap (PyStr.replace "." " " a) b
      = calculate_symptom_overlap a b).
Proof.
  split; [| split]; [| | intros _]; apply overlap_same_words.
  - by destruct a.
  - apply process_symptoms_lower.
  - by destruct a.
  - apply process_symptoms_comma.
  - by destruct a.
  - apply process_symptoms_period.
Qed.

Lemma symptom_overlap_ignores_case_and_punctuation_witness :
  calculate_symptom_overlap (PyStr.replace "." " " "Dark spots.Yellowing") "dark yellowing"
  = calculate_symptom_overlap "Dark spots.Yellowing" "dark yellowing".
Proof.
  apply (proj2 (proj2 (symptom_overlap_ignores_case_and_punctuation
                         "Dark spots.Yellowing" "dark yellowing"))).
  reflexivity.
Defined.

(** ** Words of a joined text *)

Lemma lower_app (a b : string) :
  PyStr.lower (a ++ b) = (PyStr.lower a ++ PyStr.lower b)%string.
Proof. induction a as [| c a IH]; simpl; [reflexivity |]. by rewrite IH. Qed.

Lemma replace_app (old new : ascii) (a b : string) :
  PyStr.replace old new (a ++ b)
  = (PyStr.replace old new a ++ PyStr.replace old new b)%string.
Proof. induction a as [| c a IH]; simpl; [reflexivity |]. by rewrite IH. Qed.

Lemma split_go_space (a b : string) :
  forall cur,
    PyStr.split_go cur (a ++ String " " b)
    = (PyStr.split_go cur a ++ PyStr.split b)%list.
Proof.
  induction a as [| c a IH]; intros cur; simpl.
  - reflexivity.
  - destruct (PyStr.isspace c).
    + rewrite IH, app_assoc. reflexivity.
    + apply IH.
Qed.

Lemma process_symptoms_join (a b : string) :
  process_symptoms (a ++ " " ++ b) = process_symptoms a ∪ process_symptoms b.
Proof.
  unfold process_symptoms.
  rewrite lower_app, !replace_app. simpl PyStr.lower. simpl PyStr.replace.
  unfold PyStr.split. rewrite split_go_space. fold (PyStr.split).
  rewrite list_to_set_app_L. set_solver.
Qed.

(** X4. The word set of two texts joined by a space is the union of their
    word sets. *)
Theorem process_symptoms_of_joined_text (a b : string) :
  process_symptoms (a ++ " " ++ b) = process_symptoms a ∪ process_symptoms b.
Proof. apply process_symptoms_join. Qed.

(** X5. The order in which a text lists its parts does not matter for the
    overlap score: joining two parts in either order scores the same against
    every other text. *)
Theorem symptom_overlap_ignores_word_order (a b c : string) :
  calculate_symptom_overlap (a ++ " " ++ b) c
  = calculate_symptom_overlap (b ++ " " ++ a) c.
Proof.
  apply overlap_same_words.
  - destruct a, b; reflexivity.
  - rewrite !process_symptoms_join.
    generalize (process_symptoms a) (process_symptoms b). intros s t. set_solver.
Qed.

(** X6. Saying a part twice does not change the overlap score. *)
Theorem symptom_overlap_ignores_repetition (a c : string) :
  calculate_symptom_overlap (a ++ " " ++ a) c = calculate_symptom_overlap a c.
Proof.
  destruct (decide (a = "")) as [-> | Hne].
  - rewrite !overlap_degenerate; [reflexivity | by left |].
    right. right. left. vm_compute. reflexivity.
  - apply overlap_same_words.
    + destruct a; [contradiction | reflexivity].
    + rewrite process_symptoms_join.
      generalize (process_symptoms a). intros s. set_solver.
Qed.

(** ** When the overlap score is 0 and when it is 1 *)

Lemma ratio_is_one (n m : nat) :
  (0 < m)%nat ->
  (inject_Z (Z.of_nat n) / inject_Z (Z.of_nat m) == 1)%Q -> n = m.
Proof.
  intros Hm H.
  assert (~ (inject_Z (Z.of_nat m) == 0)%Q) as Hnz by (by apply inject_nat_nonzero).
  assert (inject_Z (Z.of_nat n) == inject_Z (Z.of_nat m))%Q as E.
  { rewrite <- (Qmult_div_r (inject_Z (Z.of_nat n)) (inject_Z (Z.of_nat m)) Hnz).
    rewrite H. apply Qmult_1_r. }
  unfold Qeq in E. simpl in E. lia.
Qed.

Lemma ratio_is_zero (n m : nat) :
  (0 < m)%nat ->
  (inject_Z (Z.of_nat n) / inject_Z (Z.of_nat m) == 0)%Q <-> n = 0%nat.
Proof.
  intros Hm.
  assert (~ (inject_Z (Z.of_nat m) == 0)%Q) as Hnz by (by apply inject_nat_nonzero).
  split.
  - intros H.
    assert (inject_Z (Z.of_nat n) == 0)%Q as E.
    { rewrite <- (Qmult_div_r (inject_Z (Z.of_nat n)) (inject_Z (Z.of_nat m)) Hnz).
      rewrite H. apply Qmult_0_r. }
    unfold Qeq in E. simpl in E. lia.
  - intros ->. simpl. unfold Qdiv. apply Qmult_0_l.
Qed.

(** X7. The overlap score is 1 only when the two texts have the same,
    non-empty word set. *)
Theorem symptom_overlap_one_only_if_same_words (a b : string) (x : Q) :
  calculate_symptom_overlap a b = Ok x ->
  (x == 1)%Q ->
  process_symptoms a = process_symptoms b /\ process_symptoms a ≠ ∅.
Proof.
  intros Hx Hone.
  destruct (decide (process_symptoms a = ∅)) as [Ha | Ha].
  { rewrite overlap_degenerate in Hx by auto. injection Hx as <-. discriminate Hone. }
  destruct (decide (process_symptoms b = ∅)) as [Hb | Hb].
  { rewrite overlap_degenerate in Hx by auto. injection Hx as <-. discriminate Hone. }
  rewrite overlap_jaccard in Hx by assumption. injection Hx as <-.
  split; [| exact Ha].
  apply ratio_is_one in Hone; [| by apply union_size_pos].
  revert Hone. generalize (process_symptoms a) (process_symptoms b). intros s t Hsize.
  assert (s ∩ t = s ∪ t) as E.
  { apply set_subseteq_size_eq; [set_solver | lia]. }
  set_solver.
Qed.

Lemma symptom_overlap_one_only_if_same_words_witness :
  process_symptoms "Dark spots" = process_symptoms "spots, and DARK."
  /\ process_symptoms "Dark spots" ≠ ∅.
Proof.
  apply (symptom_overlap_one_only_if_same_words "Dark spots" "spots, and DARK."
           (2 # 2)%Q).
  - vm_compute. reflexivity.
  - reflexivity.
Defined.

(** X8. The overlap score is 0 exactly when the two texts share no word
    (stop words apart), and positive otherwise. *)
Theorem symptom_overlap_zero_iff_disjoint (a b : string) :
  exists x,
    calculate_symptom_overlap a b = Ok x
    /\ ((x == 0)%Q <-> process_symptoms a ∩ process_symptoms b = ∅)
    /\ ((0 < x)%Q <-> exists w, w ∈ process_symptoms a /\ w ∈ process_symptoms b).
Proof.
  assert (forall s t : gset string,
            (exists w, w ∈ s /\ w ∈ t) <-> s ∩ t ≠ ∅) as Hshare.
  { intros s t. split.
    - intros (w & Hs & Ht) E. set_solver.
    - intros Hne. apply set_choose_L in Hne as [w Hw]. exists w. set_solver. }
  destruct (decide (process_symptoms a = ∅ \/ process_symptoms b = ∅)) as [Hdeg | Hnon].
  - exists 0%Q. split; [apply overlap_degenerate; tauto |].
    assert (process_symptoms a ∩ process_symptoms b = ∅) as E.
    { destruct Hdeg as [E | E]; rewrite E; set_solver. }
    split; [by split |].
    rewrite Hshare. split; [intros H; inversion H | intros H; contradiction].
  - assert (process_symptoms a ≠ ∅) as Ha by tauto.
    assert (process_symptoms b ≠ ∅) as Hb by tauto.
    eexists. split; [by apply overlap_jaccard |].
    pose proof (union_size_pos _ (process_symptoms b) Ha) as Hpos.
    assert (size (process_symptoms a ∩ process_symptoms b) = 0%nat
            <-> process_symptoms a ∩ process_symptoms b = ∅) as Hsz.
    { rewrite size_empty_iff. split; intros E; [by apply leibniz_equiv | by rewrite E]. }
    split.
    + rewrite ratio_is_zero by exact Hpos. exact Hsz.
    + rewrite Hshare, <- Hsz. split.
      * intros Hlt E. apply (ratio_is_zero _ _ Hpos) in E. rewrite E in Hlt.
        exact (Qlt_irrefl _ Hlt).
      * intros Hn.
        destruct (ratio_in_unit_interval
                    (size (process_symptoms a ∩ process_symptoms b))
                    (size (process_symptoms a ∪ process_symptoms b))) as [Hge _];
          [apply subseteq_size; set_solver | exact Hpos |].
        apply Qle_lt_or_eq in Hge as [Hlt | Heq]; [exact Hlt |].
        exfalso. apply Hn. apply (ratio_is_zero _ _ Hpos). by symmetry.
Qed.

(** ** The seasonal table *)

Lemma seasonal_pattern_months (key : string) (pattern : seasonal_pattern) (month : Z) :
  seasonal_patterns !! key = Some pattern ->
  (month ∈ peak_months pattern -> 6 <= month <= 9)%Z
  /\ (month ∈ moderate_months pattern -> 5 <= month <= 10)%Z.
Proof.
  intros Hin. unfold seasonal_patterns in Hin.
  apply elem_of_list_to_map_2 in Hin.
  rewrite !elem_of_cons, elem_of_nil in Hin.
  destruct Hin as [E | [E | [E | [E | [E | []]]]]];
    injection E as -> ->; simpl;
    rewrite !elem_of_cons, !elem_of_nil; lia.
Qed.

(** X9. The seasonal relevance depends on the disease name only up to
    letter case. *)
Theorem seasonal_relevance_ignores_case (current_month : Z) (name other : string) :
  calculate_seasonal_relevance current_month (PyStr.lower name)
  = calculate_seasonal_relevance current_month name
  /\ (PyStr.lower name = PyStr.lower other ->
      calculate_seasonal_relevance current_month name
      = calculate_seasonal_relevance current_month other).
Proof.
  unfold calculate_seasonal_relevance. rewrite lower_idemp.
  split; [reflexivity |]. intros ->. reflexivity.
Qed.

Lemma seasonal_relevance_ignores_case_witness :
  calculate_seasonal_relevance 7 "Early Blight"
  = calculate_seasonal_relevance 7 "EARLY blight".
Proof.
  apply (proj2 (seasonal_relevance_ignores_case 7 "Early Blight" "EARLY blight")).
  reflexivity.
Defined.

(** X10. The neutral value 0.5 is returned exactly for the names that are
    not one of the five diseases of the table (in any letter case). *)
Theorem seasonal_relevance_neutral_iff_unknown (current_month : Z) (name : string) :
  calculate_seasonal_relevance current_month name = (1 # 2)%Q
  <-> PyStr.lower name ∉ ["bacterial spot"; "early blight"; "late blight"; "leaf mold";
                          "septoria leaf spot"].
Proof.
  rewrite <- seasonal_patterns_known. unfold calculate_seasonal_relevance.
  destruct (seasonal_patterns !! PyStr.lower name) as [pattern |].
  - split.
    + repeat case_bool_decide; discriminate.
    + intros H. exfalso. apply H. by eexists.
  - split; [| reflexivity]. intros _ [p Hp]. discriminate Hp.
Qed.

(** X11. For a disease of the table the relevance 1.0 is only given from
    June to September, 0.7 only from May to October, and every month
    outside May to October gives 0.3. *)
Theorem seasonal_relevance_in_season (current_month : Z) (name : string) :
  is_Some (seasonal_patterns !! PyStr.lower name) ->
  (calculate_seasonal_relevance current_month name = 1%Q ->
   6 <= current_month <= 9)%Z
  /\ (calculate_seasonal_relevance current_month name = (7 # 10)%Q ->
      5 <= current_month <= 10)%Z
  /\ ((current_month < 5 \/ 10 < current_month)%Z ->
      calculate_seasonal_relevance current_month name = (3 # 10)%Q).
Proof.
  intros [pattern Hp]. unfold calculate_seasonal_relevance. rewrite Hp.
  destruct (seasonal_pattern_months _ _ current_month Hp) as [Hpeak Hmod].
  destruct (decide (current_month ∈ peak_months pattern)) as [Hin | Hout].
  - rewrite bool_decide_eq_true_2 by exact Hin. specialize (Hpeak Hin).
    repeat split; intros; try discriminate; lia.
  - rewrite (bool_decide_eq_false_2 _ Hout).
    destruct (decide (current_month ∈ moderate_months pattern)) as [Hin' | Hout'].
    + rewrite bool_decide_eq_true_2 by exact Hin'. specialize (Hmod Hin').
      repeat split; intros; try discriminate; lia.
    + rewrite (bool_decide_eq_false_2 _ Hout').
      repeat split; intros; try discriminate; reflexivity.
Qed.

Lemma seasonal_relevance_in_season_witness :
  calculate_seasonal_relevance 12 "Leaf Mold" = (3 # 10)%Q.
Proof.
  apply (seasonal_relevance_in_season 12 "Leaf Mold").
  - vm_compute. by eexists.
  - right. reflexivity.
Defined.

(** ** Shape of the metrics *)


(** X13. [symptom_overlap] has one entry per alternative, in the order of
    the candidates: entry [i] names candidate [i+1] (or "Unknown") and holds
    the overlap score of the primary candidate's symptoms with that
    candidate's symptoms. *)
Theorem symptom_overlap_entries (current_month : Z) (c0 : Candidate)
    (rest : list Candidate) :
  exists d items,
    calculate_confidence_metrics current_month (c0 :: rest) = Ok d
    /\ dict_get "symptom_overlap" d = Some (PyList items)
    /\ length items = length rest
    /\ (forall i c, rest !! i = Some c ->
        exists x,
          calculate_symptom_overlap (default "" (symptoms c0)) (default "" (symptoms c))
          = Ok x
          /\ items !! i
             = Some (PyDict [ ("disease", PyStr (default "Unknown" (disease_name c)));
                              ("overlap_score", PyFloat (Fin x)) ])).
Proof.
  destruct (metrics_symptom_overlap current_month c0 rest) as (d & Hd & _ & Hov).
  exists d, (map (overlap_entry (default "" (symptoms c0))) rest).
  split; [exact Hd |]. split; [exact Hov |]. split; [apply length_map |].
  intros i c Hi. eexists. split; [apply overlap_score_returned |].
  apply (lookup_map (overlap_entry (default "" (symptoms c0))) rest i c Hi).
Qed.

Lemma symptom_overlap_entries_witness :
  exists d items x,
    calculate_confidence_metrics 8
      [cand "Early Blight" (92 # 100) "dark spots yellowing";
       cand "Late Blight" (61 # 100) "dark lesions fuzzy growth"] = Ok d
    /\ dict_get "symptom_overlap" d = Some (PyList items)
    /\ items !! 0%nat
       = Some (PyDict [ ("disease", PyStr "Late Blight");
                        ("overlap_score", PyFloat (Fin x)) ]).
Proof.
  destruct (symptom_overlap_entries 8
              (cand "Early Blight" (92 # 100) "dark spots yellowing")
              [cand "Late Blight" (61 # 100) "dark lesions fuzzy growth"])
    as (d & items & Hd & Hov & _ & Hentry).
  destruct (Hentry 0%nat (cand "Late Blight" (61 # 100) "dark lesions fuzzy growth")
              eq_refl) as (x & _ & Hx).
  exists d, items, x. repeat split; assumption.
Defined.

(** ** Sorted candidates *)

Lemma sorted_descending_head (c0 : Candidate) (l : list Candidate) :
  sorted_descending (c0 :: l) = true ->
  Forall (fun c => (get_similarity c <= get_similarity c0)%Q) l.
Proof.
  revert c0. induction l as [| c1 l IH]; intros c0 Hs; [constructor |].
  cbn [sorted_descending] in Hs. apply andb_true_iff in Hs as [Hle Hs].
  apply Qle_bool_iff in Hle.
  constructor; [exact Hle |].
  eapply Forall_impl; [apply IH, Hs |].
  intros c Hc. cbv beta in *. eapply Qle_trans; eassumption.
Qed.

Lemma inject_succ (n : nat) :
  (inject_Z (Z.of_nat (S n)) == inject_Z (Z.of_nat n) + 1)%Q.
Proof. rewrite Nat2Z.inj_succ. unfold Z.succ. rewrite inject_Z_plus. reflexivity. Qed.

Lemma fold_sum_ge (lo : Q) (l : list Q) :
  Forall (fun x => (lo <= x)%Q) l ->
  forall a, (a + inject_Z (Z.of_nat (length l)) * lo <= fold_left Qplus l a)%Q.
Proof.
  induction 1 as [| x l Hx Hl IH]; intros a.
  - cbn [fold_left length]. change (inject_Z (Z.of_nat 0)) with 0%Q. lra.
  - cbn [fold_left length]. specialize (IH (a + x)%Q).
    rewrite inject_succ.
    set (t := (inject_Z (Z.of_nat (length l)) * lo)%Q) in *.
    assert (((inject_Z (Z.of_nat (length l)) + 1) * lo == t + lo)%Q) as -> by (unfold t; ring).
    lra.
Qed.

Lemma inject_nat_positive (n : nat) : (0 < n)%nat -> (0 < inject_Z (Z.of_nat n))%Q.
Proof. intros Hn. unfold Qlt. simpl. lia. Qed.

Lemma mean_similarity_ge (lo : Q) (c : Candidate) (l : list Candidate) :
  Forall (fun c => (lo <= get_similarity c)%Q) (c :: l) ->
  (lo <= mean_similarity (c :: l))%Q.
Proof.
  intros Hall. unfold mean_similarity.
  apply Qle_shift_div_l; [apply inject_nat_positive; simpl; lia |].
  pose proof (fold_sum_ge lo (map get_similarity (c :: l))) as H.
  rewrite length_map in H. unfold pysum.
  assert (Forall (fun x => (lo <= x)%Q) (map get_similarity (c :: l))) as Hmap
    by (apply List.Forall_map; exact Hall).
  specialize (H Hmap 0%Q). lra.
Qed.

(** X14. For two or more candidates whose first similarity is positive,
    [diagnosis_clarity] is the first similarity minus the mean of the
    others, divided by the first; it is at most 1 when no alternative has a
    negative similarity. *)
Theorem diagnosis_clarity_at_most_one (current_month : Z) (c0 c1 : Candidate)
    (rest : list Candidate) :
  (0 < get_similarity c0)%Q ->
  exists d x,
    calculate_confidence_metrics current_month (c0 :: c1 :: rest) = Ok d
    /\ dict_get "diagnosis_clarity" d = Some (PyFloat (Fin x))
    /\ x = ((get_similarity c0 - mean_similarity (c1 :: rest)) / get_similarity c0)%Q
    /\ (Forall (fun c => (0 <= get_similarity c)%Q) (c1 :: rest) -> (x <= 1)%Q).
Proof.
  intros Hpos.
  eexists. eexists. split; [apply metrics_of_several |].
  cbn [dict_get String.eqb Ascii.eqb Bool.eqb]. unfold clarity_of.
  rewrite (proj2 (Qpositive_true _) Hpos).
  split; [reflexivity |]. split; [reflexivity |].
  intros Hnonneg. pose proof (mean_similarity_ge _ c1 rest Hnonneg) as Hge.
  apply Qle_shift_div_r; [exact Hpos |]. lra.
Qed.

Lemma diagnosis_clarity_at_most_one_witness :
  exists d x,
    calculate_confidence_metrics 8
      [cand "Early Blight" (92 # 100) "dark spots yellowing";
       cand "Late Blight" (61 # 100) "dark lesions fuzzy growth";
       cand "Leaf Mold" (30 # 100) "yellow spots"] = Ok d
    /\ dict_get "diagnosis_clarity" d = Some (PyFloat (Fin x))
    /\ (x <= 1)%Q.
Proof.
  destruct (diagnosis_clarity_at_most_one 8
              (cand "Early Blight" (92 # 100) "dark spots yellowing")
              (cand "Late Blight" (61 # 100) "dark lesions fuzzy growth")
              [cand "Leaf Mold" (30 # 100) "yellow spots"])
    as (d & x & Hd & Hx & _ & Hhi); [reflexivity |].
  exists d, x. repeat split; try assumption.
  apply Hhi. repeat constructor; discriminate.
Defined.

(** X15. When the first similarity is zero or negative, [diagnosis_clarity]
    is 0.0, whatever the other similarities are. *)
Theorem diagnosis_clarity_guard (current_month : Z) (c0 c1 : Candidate)
    (rest : list Candidate) :
  (get_similarity c0 <= 0)%Q ->
  exists d,
    calculate_confidence_metrics current_month (c0 :: c1 :: rest) = Ok d
    /\ dict_get "diagnosis_clarity" d = Some (PyFloat (Fin 0)).
Proof.
  intros Hle. eexists. split; [apply metrics_of_several |].
  cbn [dict_get String.eqb Ascii.eqb Bool.eqb]. unfold clarity_of.
  rewrite (proj2 (Qpositive_false _) Hle). reflexivity.
Qed.

Lemma diagnosis_clarity_guard_witness :
  exists d,
    calculate_confidence_metrics 8 [empty_candidate; cand "Late Blight" (-1 # 2) "x"] = Ok d
    /\ dict_get "diagnosis_clarity" d = Some (PyFloat (Fin 0)).
Proof.
  apply (diagnosis_clarity_guard 8 empty_candidate (cand "Late Blight" (-1 # 2) "x") []).
  discriminate.
Defined.

(** X16. For two or more candidates sorted by descending similarity,
    [relative_confidence] is at least 1; it may be [float('inf')]. *)
Theorem relative_confidence_at_least_one (current_month : Z) (c0 c1 : Candidate)
    (rest : list Candidate) :
  sorted_descending (c0 :: c1 :: rest) = true ->
  exists d v,
    calculate_confidence_metrics current_month (c0 :: c1 :: rest) = Ok d
    /\ dict_get "relative_confidence" d = Some (PyFloat v)
    /\ pyfloat_at_least 1 v.
Proof.
  intros Hsorted.
  eexists. eexists. split; [apply metrics_of_several |].
  cbn [dict_get String.eqb Ascii.eqb Bool.eqb]. split; [reflexivity |].
  unfold relative_of.
  destruct (Qpositive (get_similarity c1)) eqn:Hpos; [| exact I].
  apply Qpositive_true in Hpos.
  cbn [sorted_descending] in Hsorted. apply andb_true_iff in Hsorted as [Hle _].
  apply Qle_bool_iff in Hle.
  cbn [pyfloat_at_least]. apply Qle_shift_div_l; [exact Hpos |]. lra.
Qed.

Lemma relative_confidence_at_least_one_witness :
  exists d v,
    calculate_confidence_metrics 8
      [cand "Early Blight" (92 # 100) "dark spots yellowing";
       cand "Late Blight" (61 # 100) "dark lesions fuzzy growth"] = Ok d
    /\ dict_get "relative_confidence" d = Some (PyFloat v)
    /\ pyfloat_at_least 1 v.
Proof.
  apply (relative_confidence_at_least_one 8
           (cand "Early Blight" (92 # 100) "dark spots yellowing")
           (cand "Late Blight" (61 # 100) "dark lesions fuzzy growth") []).
  reflexivity.
Defined.


(** ** What the metrics do not depend on *)

Lemma map_through {A B C : Type} (g : A -> B) (k : B -> C) (l l' : list A) :
  map g l = map g l' -> map (fun a => k (g a)) l = map (fun a => k (g a)) l'.
Proof. intros H. rewrite <- !(map_map g k), H. reflexivity. Qed.

(** X18. The metrics depend on the candidates only through their names,
    similarities and symptoms: two candidate lists that agree on these
    three fields get the same metrics, whatever their descriptions and
    recommendations are. *)
Theorem metrics_ignore_other_fields (current_month : Z) (cs cs' : list Candidate) :
  map (fun c => (disease_name c, similarity c, symptoms c)) cs
  = map (fun c => (disease_name c, similarity c, symptoms c)) cs' ->
  calculate_confidence_metrics current_month cs
  = calculate_confidence_metrics current_month cs'.
Proof.
  intros Hkey.
  destruct cs as [| c0 l], cs' as [| c0' l']; try discriminate Hkey; [reflexivity |].
  cbn [map] in Hkey. injection Hkey as Hname Hsim Hsym Htail.
  assert (get_similarity c0 = get_similarity c0') as Hs0
    by (unfold get_similarity; by rewrite Hsim).
  assert (map get_similarity l = map get_similarity l') as Hsims.
  { apply (map_through _ (fun k => default 0%Q (snd (fst k))) _ _ Htail). }
  assert (forall ps, map (overlap_entry ps) l = map (overlap_entry ps) l') as Hovs.
  { intros ps.
    apply (map_through _
             (fun k => PyDict [ ("disease", PyStr (default "Unknown" (fst (fst k))));
                                ("overlap_score",
                                  PyFloat (Fin (overlap_score ps (default "" (snd k))))) ])
             _ _ Htail). }
  assert (length l = length l') as Hlen.
  { rewrite <- (length_map get_similarity l), Hsims. apply length_map. }
  destruct l as [| c1 rest], l' as [| c1' rest']; try discriminate Hlen.
  - rewrite !metrics_of_one, Hs0. reflexivity.
  - rewrite !metrics_of_several.
    unfold clarity_of, mean_similarity.
    rewrite Hsims, Hovs, Hlen, Hs0, Hname, Hsym.
    cbn [map] in Hsims. injection Hsims as Hs1 _. rewrite Hs1. reflexivity.
Qed.

Lemma metrics_ignore_other_fields_witness :
  calculate_confidence_metrics 8
    [ {| disease_name := Some "Early Blight"; similarity := Some (9 # 10);
         description := Some "a fungal disease"; symptoms := Some "dark spots";
         recommendation := Some "remove affected leaves" |};
      cand "Late Blight" (6 # 10) "dark lesions" ]
  = calculate_confidence_metrics 8
      [ cand "Early Blight" (9 # 10) "dark spots";
        cand "Late Blight" (6 # 10) "dark lesions" ].
Proof.
  apply metrics_ignore_other_fields. reflexivity.
Defined.

(** ** The assembled result *)

Lemma diagnose_closed (current_month : Z) (embedding : list Q) (c0 : Candidate)
    (rest : list Candidate) (d : pydict) :
  calculate_confidence_metrics current_month (c0 :: rest) = Ok d ->
  diagnose_plant_disease current_month None (Some embedding) (c0 :: rest)
  = Ok (PyDict
      [ ("success", PyBool true);
        ("diagnosis", PyDict
          [ ("primary_disease", PyStr (default "Unknown Disease" (disease_name c0)));
            ("confidence", PyFloat (Fin (get_similarity c0)));
            ("description",
              PyStr (default "No description available" (description c0)));
            ("symptoms",
              PyStr (default "No symptoms information available" (symptoms c0)));
            ("recommendation",
              PyStr (default "No recommendations available" (recommendation c0)));
            ("confidence_metrics", PyDict
              [ ("relative_confidence",
                  dict_get_default "relative_confidence" (PyFloat (Fin 0)) d);
                ("confidence_margin",
                  dict_get_default "confidence_margin" (PyFloat (Fin 0)) d);
                ("diagnosis_clarity",
                  dict_get_default "diagnosis_clarity" (PyFloat (Fin 0)) d);
                ("symptom_overlap", dict_get_default "symptom_overlap" (PyList []) d);
                ("seasonal_relevance",
                  dict_get_default "seasonal_relevance" (PyFloat (Fin 0)) d) ]) ]);
        ("alternative_diagnoses", PyList (map alternative_entry rest)) ]).
Proof.
  intros Hd. unfold diagnose_plant_disease. rewrite Hd.
  cbn [pybind list_getitem nth_error drop]. rewrite drop_0. reflexivity.
Qed.

(** X19. For candidates whose fields are each absent or of their declared
    type, the assembler always returns a result.  The result is a success
    exactly when the model loaded, an embedding was produced and at least
    one candidate was found; otherwise it holds [success = False] and an
    error text and no diagnosis payload.  A model failure is reported first
    (with its details), then an embedding failure, then the lack of
    candidates. *)
Theorem diagnose_outcomes (current_month : Z) (clip_load_error : option string)
    (embedding : option (list Q)) (cs : list Candidate) :
  exists r,
    diagnose_plant_disease current_month clip_load_error embedding cs = Ok r
    /\ (dict_path ["success"] r = Some (PyBool true)
        <-> clip_load_error = None /\ embedding <> None /\ cs <> [])
    /\ (dict_path ["success"] r = Some (PyBool true)
        \/ (dict_path ["success"] r = Some (PyBool false)
            /\ (exists text, dict_path ["error"] r = Some (PyStr text))
            /\ dict_path ["diagnosis"] r = None
            /\ dict_path ["alternative_diagnoses"] r = None))
    /\ (forall details, clip_load_error = Some details ->
        dict_path ["error"] r = Some (PyStr "Failed to load CLIP model")
        /\ dict_path ["details"] r = Some (PyStr details))
    /\ (clip_load_error = None -> embedding = None ->
        dict_path ["error"] r = Some (PyStr "Failed to generate image embedding"))
    /\ (clip_load_error = None -> embedding <> None -> cs = [] ->
        dict_path ["error"] r = Some (PyStr "No similar diseases found")).
Proof.
  destruct clip_load_error as [details |].
  { eexists. split; [reflexivity |]. cbn.
    split; [split; [discriminate | intros [? _]; discriminate] |].
    split; [right; repeat split; by eexists |].
    split; [intros ? [= ->]; by split |].
    split; discriminate. }
  destruct embedding as [e |].
  2:{ eexists. split; [reflexivity |]. cbn.
      split; [split; [discriminate | intros (_ & H & _); contradiction] |].
      split; [right; repeat split; by eexists |].
      split; [discriminate |].
      split; [reflexivity | intros _ H; contradiction]. }
  destruct cs as [| c0 rest].
  { eexists. split; [reflexivity |]. cbn.
    split; [split; [discriminate | intros (_ & _ & H); contradiction] |].
    split; [right; repeat split; by eexists |].
    split; [discriminate |].
    split; [discriminate | reflexivity]. }
  destruct (calculate_confidence_metrics_total current_month (c0 :: rest)) as [d Hd].
  eexists. split; [by apply diagnose_closed |]. cbn.
  split; [split; [intros _; repeat split; discriminate | reflexivity] |].
  split; [by left |].
  split; [discriminate |].
  split; [discriminate | discriminate].
Qed.

Lemma diagnose_outcomes_witness :
  exists r,
    diagnose_plant_disease 8 (Some "out of memory") None [empty_candidate] = Ok r
    /\ dict_path ["error"] r = Some (PyStr "Failed to load CLIP model")
    /\ dict_path ["details"] r = Some (PyStr "out of memory").
Proof.
  destruct (diagnose_outcomes 8 (Some "out of memory") None [empty_candidate])
    as (r & Hr & _ & _ & Hclip & _).
  exists r. split; [exact Hr |]. apply Hclip. reflexivity.
Defined.

(** X20. In a success the reported [confidence] is the metrics'
    [absolute_confidence], and [confidence_metrics] holds the five other
    fields of the metrics, each with the value the calculator gave it;
    [absolute_confidence] itself is not repeated there. *)
Theorem diagnosis_matches_metrics (current_month : Z) (embedding : list Q)
    (c0 : Candidate) (rest : list Candidate) :
  exists d r reported,
    calculate_confidence_metrics current_month (c0 :: rest) = Ok d
    /\ diagnose_plant_disease current_month None (Some embedding) (c0 :: rest) = Ok r
    /\ dict_path ["diagnosis"; "confidence"] r = dict_get "absolute_confidence" d
    /\ dict_path ["diagnosis"; "confidence_metrics"] r = Some (PyDict reported)
    /\ map fst reported = ["relative_confidence"; "confidence_margin";
                           "diagnosis_clarity"; "symptom_overlap"; "seasonal_relevance"]
    /\ (forall key, key <> "absolute_confidence" -> dict_get key reported = dict_get key d)
    /\ dict_get "absolute_confidence" reported = None.
Proof.
  assert (forall (d : pydict) key,
            map fst d = ["absolute_confidence"; "relative_confidence"; "confidence_margin";
                         "diagnosis_clarity"; "symptom_overlap"; "seasonal_relevance"] ->
            key <> "absolute_confidence" ->
            dict_get key
              [ ("relative_confidence",
                  dict_get_default "relative_confidence" (PyFloat (Fin 0)) d);
                ("confidence_margin",
                  dict_get_default "confidence_margin" (PyFloat (Fin 0)) d);
                ("diagnosis_clarity",
                  dict_get_default "diagnosis_clarity" (PyFloat (Fin 0)) d);
                ("symptom_overlap", dict_get_default "symptom_overlap" (PyList []) d);
                ("seasonal_relevance",
                  dict_get_default "seasonal_relevance" (PyFloat (Fin 0)) d) ]
            = dict_get key d) as Hcopy.
  { intros d key Hkeys Hne.
    destruct d as [| [k1 v1] [| [k2 v2] [| [k3 v3] [| [k4 v4] [| [k5 v5] [| [k6 v6] [|]]]]]]];
      try discriminate Hkeys.
    cbn [map fst] in Hkeys. injection Hkeys as -> -> -> -> -> ->.
    unfold dict_get_default.
    cbn [dict_get].
    destruct (String.eqb_spec "absolute_confidence" key) as [E | _];
      [congruence |].
    cbn. repeat (destruct (String.eqb_spec _ key); [reflexivity |]). reflexivity. }
  destruct rest as [| c1 rest].
  - eexists. eexists. eexists.
    split; [apply metrics_of_one |].
    split; [apply diagnose_closed, metrics_of_one |].
    split; [reflexivity |]. split; [reflexivity |]. split; [reflexivity |].
    split; [| reflexivity].
    intros key Hne. by apply Hcopy.
  - eexists. eexists. eexists.
    split; [apply metrics_of_several |].
    split; [apply diagnose_closed, metrics_of_several |].
    split; [reflexivity |]. split; [reflexivity |]. split; [reflexivity |].
    split; [| reflexivity].
    intros key Hne. by apply Hcopy.
Qed.

(** X21. [alternative_diagnoses] has one entry per candidate after the
    first, in the same order; entry [i] holds candidate [i+1]'s name,
    similarity and description (or their placeholders) and nothing else. *)
Theorem alternatives_follow_candidates (current_month : Z) (embedding : list Q)
    (c0 : Candidate) (rest : list Candidate) :
  exists r alternatives,
    diagnose_plant_disease current_month None (Some embedding) (c0 :: rest) = Ok r
    /\ dict_path ["alternative_diagnoses"] r = Some (PyList alternatives)
    /\ length alternatives = length rest
    /\ (forall i c, rest !! i = Some c ->
        alternatives !! i
        = Some (PyDict
            [ ("disease_name", PyStr (default "Unknown Disease" (disease_name c)));
              ("confidence", PyFloat (Fin (default 0%Q (similarity c))));
              ("description",
                PyStr (default "No description available" (description c))) ])).
Proof.
  destruct (calculate_confidence_metrics_total current_month (c0 :: rest)) as [d Hd].
  eexists. exists (map alternative_entry rest).
  split; [by apply diagnose_closed |]. split; [reflexivity |].
  split; [apply length_map |].
  intros i c Hi. apply (lookup_map alternative_entry rest i c Hi).
Qed.

Lemma alternatives_follow_candidates_witness :
  exists r alternatives,
    diagnose_plant_disease 8 None (Some [])
      [cand "Early Blight" (92 # 100) "dark spots yellowing";
       cand "Late Blight" (61 # 100) "dark lesions fuzzy growth"] = Ok r
    /\ dict_path ["alternative_diagnoses"] r = Some (PyList alternatives)
    /\ alternatives !! 0%nat
       = Some (PyDict [ ("disease_name", PyStr "Late Blight");
                        ("confidence", PyFloat (Fin (61 # 100)));
                        ("description", PyStr "No description available") ]).
Proof.
  destruct (alternatives_follow_candidates 8 []
              (cand "Early Blight" (92 # 100) "dark spots yellowing")
              [cand "Late Blight" (61 # 100) "dark lesions fuzzy growth"])
    as (r & alternatives & Hr & Halt & _ & Hentry).
  exists r, alternatives. split; [exact Hr |]. split; [exact Halt |].
  apply (Hentry 0%nat (cand "Late Blight" (61 # 100) "dark lesions fuzzy growth")).
  reflexivity.
Defined.

(** X22. When the candidates are sorted by descending similarity, no
    alternative is reported with a higher confidence than the primary
    diagnosis. *)
Theorem alternatives_below_primary (current_month : Z) (embedding : list Q)
    (c0 : Candidate) (rest : list Candidate) :
  sorted_descending (c0 :: rest) = true ->
  exists r alternatives primary,
    diagnose_plant_disease current_month None (Some embedding) (c0 :: rest) = Ok r
    /\ dict_path ["diagnosis"; "confidence"] r = Some (PyFloat (Fin primary))
    /\ dict_path ["alternative_diagnoses"] r = Some (PyList alternatives)
    /\ (forall i alternative, alternatives !! i = Some alternative ->
        exists x,
          dict_path ["confidence"] alternative = Some (PyFloat (Fin x))
          /\ (x <= primary)%Q).
Proof.
  intros Hsorted.
  destruct (calculate_confidence_metrics_total current_month (c0 :: rest)) as [d Hd].
  eexists. exists (map alternative_entry rest), (get_similarity c0).
  split; [by apply diagnose_closed |]. split; [reflexivity |]. split; [reflexivity |].
  intros i alternative Hi.
  assert (exists c, rest !! i = Some c /\ alternative = alternative_entry c)
    as (c & Hc & ->).
  { clear -Hi. revert i Hi. induction rest as [| c rest IH]; intros [| i] Hi;
      simpl in Hi; try discriminate.
    - injection Hi as <-. by exists c.
    - by apply IH. }
  exists (get_similarity c). split; [reflexivity |].
  pose proof (sorted_descending_head _ _ Hsorted) as Hall.
  rewrite List.Forall_forall in Hall. apply Hall.
  apply list_elem_of_In. by eapply list_elem_of_lookup_2.
Qed.

Lemma alternatives_below_primary_witness :
  exists r alternatives primary,
    diagnose_plant_disease 8 None (Some [])
      [cand "Early Blight" (92 # 100) "dark spots yellowing";
       cand "Late Blight" (61 # 100) "dark lesions fuzzy growth"] = Ok r
    /\ dict_path ["diagnosis"; "confidence"] r = Some (PyFloat (Fin primary))
    /\ dict_path ["alternative_diagnoses"] r = Some (PyList alternatives)
    /\ (forall i alternative, alternatives !! i = Some alternative ->
        exists x,
          dict_path ["confidence"] alternative = Some (PyFloat (Fin x))
          /\ (x <= primary)%Q).
Proof.
  apply (alternatives_below_primary 8 []
           (cand "Early Blight" (92 # 100) "dark spots yellowing")
           [cand "Late Blight" (61 # 100) "dark lesions fuzzy growth"]).
  reflexivity.
Defined.

(** X23. In a success the descriptive fields of the diagnosis are those of
    the first candidate; an absent description, symptoms or recommendation
    is reported as "No description available", "No symptoms information
    available" or "No recommendations available".  Absent symptoms are thus
    shown with a placeholder although the overlap scores treat them as the
    empty text. *)
Theorem primary_fields (current_month : Z) (embedding : list Q)
    (c0 : Candidate) (rest : list Candidate) :
  exists r,
    diagnose_plant_disease current_month None (Some embedding) (c0 :: rest) = Ok r
    /\ (forall text, description c0 = Some text ->
        dict_path ["diagnosis"; "description"] r = Some (PyStr text))
    /\ (forall text, symptoms c0 = Some text ->
        dict_path ["diagnosis"; "symptoms"] r = Some (PyStr text))
    /\ (forall text, recommendation c0 = Some text ->
        dict_path ["diagnosis"; "recommendation"] r = Some (PyStr text))
    /\ (description c0 = None ->
        dict_path ["diagnosis"; "description"] r
        = Some (PyStr "No description available"))
    /\ (symptoms c0 = None ->
        dict_path ["diagnosis"; "symptoms"] r
        = Some (PyStr "No symptoms information available"))
    /\ (recommendation c0 = None ->
        dict_path ["diagnosis"; "recommendation"] r
        = Some (PyStr "No recommendations available")).
Proof.
  destruct (calculate_confidence_metrics_total current_month (c0 :: rest)) as [d Hd].
  eexists. split; [by apply diagnose_closed |]. cbn.
  repeat split; intros; match goal with H : _ = _ |- _ => rewrite H end; reflexivity.
Qed.

Lemma primary_fields_witness :
  exists r,
    diagnose_plant_disease 8 None (Some []) [cand "Healthy" (99 # 100) "none"] = Ok r
    /\ dict_path ["diagnosis"; "symptoms"] r = Some (PyStr "none")
    /\ dict_path ["diagnosis"; "description"] r = Some (PyStr "No description available").
Proof.
  destruct (primary_fields 8 [] (cand "Healthy" (99 # 100) "none") [])
    as (r & Hr & _ & Hsym & _ & Hdesc & _).
  exists r. split; [exact Hr |]. split; [by apply Hsym | by apply Hdesc].
Defined.

(** ** The HTTP route *)

Lemma dict_get_app_other (key k : string) (v : pyval) (d : pydict) :
  key <> k -> dict_get key (d ++ [(k, v)]) = dict_get key d.
Proof.
  intros Hne. induction d as [| [k' w] d IH]; simpl.
  - destruct (String.eqb_spec k key); [congruence | reflexivity].
  - destruct (String.eqb k' key); [reflexivity | exact IH].
Qed.

Lemma dict_get_app_new (key : string) (v : pyval) (d : pydict) :
  dict_get key d = None -> dict_get key (d ++ [(key, v)]) = Some v.
Proof.
  induction d as [| [k' w] d IH]; simpl.
  - intros _. by rewrite String.eqb_refl.
  - destruct (String.eqb k' key); [discriminate | exact IH].
Qed.

Lemma dict_setitem_fresh (key : string) (v : pyval) (d : pydict) :
  dict_get key d = None -> dict_setitem key v d = (d ++ [(key, v)])%list.
Proof.
  induction d as [| [k' w] d IH]; simpl; [reflexivity |].
  destruct (String.eqb k' key); [discriminate |].
  intros H. f_equal. by apply IH.
Qed.

(** The two shapes of a result of [diagnose_plant_disease]. *)
Lemma diagnosed_shape (r : pyval) :
  diagnosed r ->
  (exists d,
     r = PyDict d
     /\ dict_get "success" d = Some (PyBool false)
     /\ dict_get "timestamp" d = None)
  \/ (exists name sim desc sym rec cm alts,
        r = PyDict
          [ ("success", PyBool true);
            ("diagnosis", PyDict
              [ ("primary_disease", PyStr name);
                ("confidence", PyFloat (Fin sim));
                ("description", PyStr desc);
                ("symptoms", PyStr sym);
                ("recommendation", PyStr rec);
                ("confidence_metrics", cm) ]);
            ("alternative_diagnoses", alts) ]).
Proof.
  intros (m & err & emb & cs & H).
  destruct err as [details |]; [injection H as <-; left; by eexists |].
  destruct emb as [e |]; [| injection H as <-; left; by eexists].
  destruct cs as [| c0 rest]; [injection H as <-; left; by eexists |].
  destruct (calculate_confidence_metrics_total m (c0 :: rest)) as [d Hd].
  rewrite (diagnose_closed _ _ _ _ _ Hd) in H. injection H as <-.
  right. repeat eexists.
Qed.

(** X24. The handler of [POST /diagnose] never answers with an HTTP error
    for such candidates: it returns the result of [diagnose_plant_disease]
    with one more field, [timestamp], after the others, and every other
    field unchanged.  A failed diagnosis is therefore returned as a normal
    answer with [success = False]. *)
Theorem diagnose_route_adds_timestamp (timestamp : string) (current_month : Z)
    (clip_load_error : option string) (embedding : option (list Q))
    (cs : list Candidate) :
  exists d body,
    diagnose_plant_disease current_month clip_load_error embedding cs = Ok (PyDict d)
    /\ diagnose timestamp current_month clip_load_error embedding cs
       = Returned (PyDict body)
    /\ body = (d ++ [("timestamp", PyStr timestamp)])%list
    /\ dict_get "timestamp" body = Some (PyStr timestamp)
    /\ (forall key, key <> "timestamp" -> dict_get key body = dict_get key d).
Proof.
  destruct (diagnose_plant_disease_total current_month clip_load_error embedding cs)
    as [r Hr].
  assert (exists d, r = PyDict d /\ dict_get "timestamp" d = None) as (d & -> & Hfresh).
  { destruct (diagnosed_shape r) as [(d & -> & _ & Hd) | Hshape].
    - by repeat eexists.
    - by eexists.
    - destruct Hshape as (? & ? & ? & ? & ? & ? & ? & ->). by eexists. }
  exists d, (d ++ [("timestamp", PyStr timestamp)])%list.
  split; [exact Hr |].
  split; [unfold diagnose; rewrite Hr; cbn; by rewrite dict_setitem_fresh |].
  split; [reflexivity |].
  split; [by apply dict_get_app_new |].
  intros key Hne. by apply dict_get_app_other.
Qed.

(** ** The test script *)

Lemma run_test_cases_cons (expected_disease : string) (result : pyval)
    (cases : list (string * pyval)) (results : list test_result) :
  run_test_cases ((expected_disease, result) :: cases) results
  = let+ results' := test_case_step expected_disease result results in
    run_test_cases cases results'.
Proof.
  cbn [run_test_cases]. unfold test_case_step.
  destruct (subscript "success" result) as [success |]; cbn [obind]; [| reflexivity].
  destruct (truthy success); [| reflexivity].
  destruct (subscript "diagnosis" result) as [diagnosis |]; cbn [obind]; [| reflexivity].
  destruct (subscript "primary_disease" diagnosis); cbn [obind]; [| reflexivity].
  destruct (subscript "confidence" diagnosis) as [shown |]; cbn [obind]; [| reflexivity].
  destruct (format_2f shown); cbn [obind]; [| reflexivity].
  destruct (subscript "description" diagnosis); cbn [obind]; [| reflexivity].
  destruct (lower_of _); reflexivity.
Qed.

Lemma test_case_step_failure (expected_disease : string) (result : pyval)
    (results : list test_result) :
  dict_path ["success"] result = Some (PyBool false) ->
  test_case_step expected_disease result results = Done results.
Proof.
  intros H. destruct result as [| | | | d]; try discriminate H.
  cbn in H. unfold test_case_step, subscript, dict_getitem.
  destruct (dict_get "success" d) as [v |]; [| discriminate H].
  injection H as ->. reflexivity.
Qed.

Lemma run_test_cases_all_failed (cases : list (string * pyval)) :
  Forall (fun case => dict_path ["success"] (snd case) = Some (PyBool false)) cases ->
  forall results, run_test_cases cases results = Done results.
Proof.
  induction 1 as [| [e r] cases Hr _ IH]; intros results; [reflexivity |].
  rewrite run_test_cases_cons, test_case_step_failure by exact Hr.
  apply IH.
Qed.

(** X25. When no diagnosis succeeds (also when there is no test case), the
    test script stops with a [ZeroDivisionError]: the accuracy divides by
    the number of successful diagnoses. *)
Theorem test_diagnosis_without_success (cases : list (string * pyval)) :
  Forall (fun case => dict_path ["success"] (snd case) = Some (PyBool false)) cases ->
  test_diagnosis cases = Failed (FromCore ZeroDivisionError).
Proof.
  intros Hall. unfold test_diagnosis.
  rewrite (run_test_cases_all_failed cases Hall). reflexivity.
Qed.

Lemma test_diagnosis_without_success_witness :
  test_diagnosis
    [ ("Healthy", PyDict [ ("success", PyBool false);
                           ("error", PyStr "No similar diseases found") ]) ]
  = Failed (FromCore ZeroDivisionError).
Proof.
  apply test_diagnosis_without_success. repeat constructor.
Defined.

Lemma test_case_step_diagnosed (expected_disease : string) (r : pyval)
    (results : list test_result) :
  diagnosed r ->
  (succeeded r = false /\ test_case_step expected_disease r results = Done results)
  \/ (succeeded r = true
      /\ exists name sim,
           dict_path ["diagnosis"; "primary_disease"] r = Some (PyStr name)
           /\ dict_path ["diagnosis"; "confidence"] r = Some (PyFloat (Fin sim))
           /\ test_case_step expected_disease r results
              = Done (results ++
                        [ {| expected := expected_disease;
                             predicted := PyStr name;
                             confidence := PyFloat (Fin sim);
                             correct := str_in (PyStr.lower expected_disease)
                                          (PyStr.lower name) |} ])%list).
Proof.
  intros Hr. destruct (diagnosed_shape r Hr) as [(d & -> & Hs & _) | Hshape].
  - left. split.
    + unfold succeeded. cbn. by rewrite Hs.
    + apply test_case_step_failure. cbn. by rewrite Hs.
  - destruct Hshape as (name & sim & desc & sym & rec & cm & alts & ->).
    right. split; [reflexivity |]. exists name, sim. repeat split; reflexivity.
Qed.

Lemma run_test_cases_diagnosed (cases : list (string * pyval)) :
  Forall (fun case => diagnosed (snd case)) cases ->
  forall results,
    exists new,
      run_test_cases cases results = Done (results ++ new)%list
      /\ length new = length (filter (fun case => succeeded (snd case) = true) cases)
      /\ Forall (fun r => format_2f (confidence r) = Done tt) new.
Proof.
  induction 1 as [| [e r] cases Hr _ IH]; intros results.
  - exists []. rewrite app_nil_r. by repeat split.
  - rewrite run_test_cases_cons.
    destruct (test_case_step_diagnosed e r results Hr)
      as [[Hs ->] | (Hs & name & sim & _ & _ & ->)]; cbn [obind].
    + destruct (IH results) as (new & Hrun & Hlen & Hfmt).
      exists new. split; [exact Hrun |]. split; [| exact Hfmt].
      rewrite filter_cons_False; [exact Hlen |]. cbn. by rewrite Hs.
    + destruct (IH (results ++
                      [ {| expected := e; predicted := PyStr name;
                           confidence := PyFloat (Fin sim);
                           correct := str_in (PyStr.lower e) (PyStr.lower name) |} ])%list)
        as (new & Hrun & Hlen & Hfmt).
      eexists (_ :: new). split; [rewrite Hrun, <- app_assoc; reflexivity |].
      split.
      * rewrite filter_cons_True by exact Hs. cbn [length]. by rewrite Hlen.
      * constructor; [reflexivity | exact Hfmt].
Qed.

Lemma log_results_done (results : list test_result) :
  Forall (fun r => format_2f (confidence r) = Done tt) results ->
  log_results results = Done tt.
Proof.
  induction 1 as [| r results Hr _ IH]; [reflexivity |].
  cbn [log_results]. rewrite Hr. exact IH.
Qed.

Lemma filter_exists_length {A : Type} (P : A -> Prop) `{forall x, Decision (P x)}
    (l : list A) :
  Exists P l -> (0 < length (filter P l))%nat.
Proof.
  induction 1 as [x l Hx | x l _ IH].
  - rewrite filter_cons_True by exact Hx. simpl. lia.
  - destruct (decide (P x)).
    + rewrite filter_cons_True by assumption. simpl. lia.
    + rewrite filter_cons_False by assumption. exact IH.
Qed.

(** X26. When every case carries a result that [diagnose_plant_disease]
    returns for candidates whose fields are each absent or of their declared
    type, and at least one of them is a success, the test script finishes:
    it keeps one result per successful diagnosis and reports an accuracy
    between 0 and 100 percent. *)
Theorem test_diagnosis_accuracy (cases : list (string * pyval)) :
  Forall (fun case => diagnosed (snd case)) cases ->
  Exists (fun case => succeeded (snd case) = true) cases ->
  exists results accuracy,
    test_diagnosis cases = Done (results, accuracy)
    /\ length results
       = length (filter (fun case => succeeded (snd case) = true) cases)
    /\ (0 <= accuracy)%Q /\ (accuracy <= 100)%Q.
Proof.
  intros Hall Hsome.
  destruct (run_test_cases_diagnosed cases Hall []) as (results & Hrun & Hlen & Hfmt).
  cbn [app] in Hrun.
  pose proof (filter_exists_length _ cases Hsome) as Hpos. rewrite <- Hlen in Hpos.
  unfold test_diagnosis. rewrite Hrun. cbn [obind].
  rewrite pydiv_nonzero by (by apply inject_nat_nonzero). cbn [lift obind].
  rewrite (log_results_done results Hfmt). cbn [obind].
  eexists. eexists. split; [reflexivity |]. split; [exact Hlen |].
  destruct (ratio_in_unit_interval
              (length (filter (fun r => correct r = true) results)) (length results))
    as [Hlo Hhi]; [apply length_filter | exact Hpos |].
  split; lra.
Qed.

Lemma test_diagnosis_accuracy_witness :
  exists results accuracy,
    test_diagnosis
      [ ("Healthy",
          PyDict
            [ ("success", PyBool true);
              ("diagnosis", PyDict
                [ ("primary_disease", PyStr "Healthy");
                  ("confidence", PyFloat (Fin (99 # 100)));
                  ("description", PyStr "No description available");
                  ("symptoms", PyStr "none");
                  ("recommendation", PyStr "No recommendations available");
                  ("confidence_metrics", PyDict
                    [ ("relative_confidence", PyFloat (Fin 0));
                      ("confidence_margin", PyFloat (Fin 0));
                      ("diagnosis_clarity", PyFloat (Fin 0));
                      ("symptom_overlap", PyList []);
                      ("seasonal_relevance", PyFloat (Fin 0)) ]) ]);
              ("alternative_diagnoses", PyList []) ]);
        ("Tomato Early Blight",
          PyDict [ ("success", PyBool false);
                   ("error", PyStr "No similar diseases found") ]) ]
    = Done (results, accuracy)
    /\ length results = 1%nat
    /\ (0 <= accuracy)%Q /\ (accuracy <= 100)%Q.
Proof.
  apply test_diagnosis_accuracy.
  - constructor.
    + exists 8%Z, None, (Some []), [cand "Healthy" (99 # 100) "none"]. reflexivity.
    + constructor; [| constructor].
      exists 8%Z, None, (Some []), []. reflexivity.
  - constructor. reflexivity.
Defined.

Lemma run_test_cases_skip (expected_disease : string) (r : pyval)
    (before after : list (string * pyval)) :
  dict_path ["success"] r = Some (PyBool false) ->
  forall results,
    run_test_cases (before ++ (expected_disease, r) :: after) results
    = run_test_cases (before ++ after) results.
Proof.
  intros Hr. induction before as [| [e1 r1] before IH]; intros results.
  - cbn [app]. rewrite run_test_cases_cons, test_case_step_failure by exact Hr.
    reflexivity.
  - cbn [app]. rewrite !run_test_cases_cons.
    destruct (test_case_step e1 r1 results); cbn [obind]; [apply IH | reflexivity].
Qed.

(** X27. A failed diagnosis does not count against the accuracy: the test
    script gives the same outcome with and without a case whose result has
    [success = False]. *)
Theorem failed_diagnosis_not_counted (expected_disease : string) (r : pyval)
    (before after : list (string * pyval)) :
  dict_path ["success"] r = Some (PyBool false) ->
  test_diagnosis (before ++ (expected_disease, r) :: after)
  = test_diagnosis (before ++ after).
Proof.
  intros Hr. unfold test_diagnosis. by rewrite run_test_cases_skip.
Qed.

Lemma failed_diagnosis_not_counted_witness :
  test_diagnosis
    ([] ++ ("Healthy", PyDict [ ("success", PyBool false);
                               ("error", PyStr "Failed to generate image embedding") ])
        :: [])
  = test_diagnosis ([] ++ []).
Proof.
  apply failed_diagnosis_not_counted. reflexivity.
Defined.




(** ** The test script's reference rows *)

Lemma select_by_name_nil (name : string) (table : list disease_row) :
  select_by_name name table = [] <-> name ∉ map row_disease_name table.
Proof.
  unfold select_by_name. induction table as [| row table IH]; simpl.
  - split; [intros _ H; inversion H | reflexivity].
  - rewrite not_elem_of_cons.
    destruct (decide (row_disease_name row = name)) as [E | E].
    + rewrite filter_cons_True by exact E. split; [discriminate | intros [H _]; congruence].
    + rewrite filter_cons_False by exact E. rewrite IH. split; [by split | tauto].
Qed.

Lemma add_diseases_spec (diseases : list disease_row) :
  forall table,
    exists added,
      add_diseases diseases table = (table ++ added)%list
      /\ (forall row, row ∈ added -> row ∈ diseases)
      /\ (forall row, row ∈ added -> row_disease_name row ∉ map row_disease_name table)
      /\ (forall row, row ∈ diseases ->
          row_disease_name row ∈ map row_disease_name (table ++ added))
      /\ NoDup (map row_disease_name added).
Proof.
  induction diseases as [| disease diseases IH]; intros table.
  - exists []. rewrite app_nil_r.
    repeat split; try (intros row H; inversion H). constructor.
  - cbn [add_diseases].
    destruct (select_by_name (row_disease_name disease) table) as [| r rs] eqn:Hsel.
    + apply select_by_name_nil in Hsel.
      destruct (IH (insert_row disease table))
        as (added & Hrun & Hfrom & Hfresh & Hall & Hnodup).
      unfold insert_row in *.
      exists (disease :: added).
      split; [rewrite Hrun, <- app_assoc; reflexivity |].
      split.
      { intros row Hrow. apply elem_of_cons in Hrow as [-> | Hrow]; [left |].
        right. by apply Hfrom. }
      split.
      { intros row Hrow. apply elem_of_cons in Hrow as [-> | Hrow]; [exact Hsel |].
        specialize (Hfresh row Hrow). rewrite map_app in Hfresh.
        intros Hin. apply Hfresh. apply elem_of_app. by left. }
      split.
      { intros row Hrow. rewrite <- app_assoc in Hall. cbn [app] in Hall.
        apply elem_of_cons in Hrow as [-> | Hrow]; [| by apply Hall].
        rewrite map_app. apply elem_of_app. right. left. }
      cbn [map]. constructor; [| exact Hnodup].
      intros Hin. apply list_elem_of_In, in_map_iff in Hin as (row & Hname & Hrow).
      apply (Hfresh row); [by apply list_elem_of_In |].
      rewrite Hname, map_app. apply elem_of_app. right. left.
    + assert (row_disease_name disease ∈ map row_disease_name table) as Hin.
      { destruct (decide (row_disease_name disease ∈ map row_disease_name table));
          [assumption |].
        exfalso. assert (select_by_name (row_disease_name disease) table = [])
          by (by apply select_by_name_nil). congruence. }
      destruct (IH table) as (added & Hrun & Hfrom & Hfresh & Hall & Hnodup).
      exists added. split; [exact Hrun |].
      split; [intros row Hrow; right; by apply Hfrom |].
      split; [exact Hfresh |]. split; [| exact Hnodup].
      intros row Hrow. apply elem_of_cons in Hrow as [-> | Hrow]; [| by apply Hall].
      rewrite map_app. apply elem_of_app. by left.
Qed.

Lemma add_diseases_present (diseases : list disease_row) :
  forall table,
    (forall row, row ∈ diseases -> row_disease_name row ∈ map row_disease_name table) ->
    add_diseases diseases table = table.
Proof.
  induction diseases as [| disease diseases IH]; intros table Hall; [reflexivity |].
  cbn [add_diseases].
  destruct (select_by_name (row_disease_name disease) table) as [| r rs] eqn:Hsel.
  - apply select_by_name_nil in Hsel. exfalso. apply Hsel, Hall. left.
  - apply IH. intros row Hrow. apply Hall. by right.
Qed.

(** X29. Adding the test diseases keeps every row of the table, in place,
    and appends only rows of the five test diseases whose name the table
    did not hold, at most one per name; afterwards each of the five names
    is in the table. *)
Theorem add_test_diseases_appends (table : list disease_row) :
  exists added,
    add_test_diseases_to_db table = (table ++ added)%list
    /\ (forall row, row ∈ added -> row ∈ test_diseases)
    /\ (forall row, row ∈ added -> row_disease_name row ∉ map row_disease_name table)
    /\ NoDup (map row_disease_name added)
    /\ (forall name,
          name ∈ ["Tomato Early Blight"; "Tomato Late Blight"; "Tomato Leaf Mold";
                  "Tomato Septoria Leaf Spot"; "Healthy"] ->
          name ∈ map row_disease_name (add_test_diseases_to_db table)).
Proof.
  unfold add_test_diseases_to_db.
  destruct (add_diseases_spec test_diseases table)
    as (added & Hrun & Hfrom & Hfresh & Hall & Hnodup).
  exists added. split; [exact Hrun |]. split; [exact Hfrom |].
  split; [exact Hfresh |]. split; [exact Hnodup |].
  intros name Hname. rewrite Hrun.
  change ["Tomato Early Blight"; "Tomato Late Blight"; "Tomato Leaf Mold";
          "Tomato Septoria Leaf Spot"; "Healthy"]
    with (map row_disease_name test_diseases) in Hname.
  apply list_elem_of_In, in_map_iff in Hname as (row & <- & Hrow).
  apply Hall. by apply list_elem_of_In.
Qed.

(** X30. Adding the test diseases a second time changes nothing. *)
Theorem add_test_diseases_idempotent (table : list disease_row) :
  add_test_diseases_to_db (add_test_diseases_to_db table)
  = add_test_diseases_to_db table.
Proof.
  unfold add_test_diseases_to_db.
  destruct (add_diseases_spec test_diseases table) as (added & Hrun & _ & _ & Hall & _).
  rewrite Hrun. apply add_diseases_present. exact Hall.
Qed.

(** ** Rows with null columns *)

Lemma get_of_option {A : Type} (o : option A) (dflt : A) :
  Nullable.get (Nullable.of_option o) dflt = Some (default dflt o).
Proof. by destruct o. Qed.

Lemma sum_from_values (l : list Q) :
  forall acc, Nullable.sum_from acc (map Some l) = Done (fold_left Qplus l acc).
Proof. induction l as [| x l IH]; intros acc; [reflexivity | apply IH]. Qed.

Lemma nullable_get_setitem_same (key : string) (v : Nullable.pyany)
    (d : list (string * Nullable.pyany)) :
  Nullable.dict_get key (Nullable.dict_setitem key v d) = Some v.
Proof.
  induction d as [| [k w] d IH]; simpl.
  - rewrite String.eqb_refl. reflexivity.
  - destruct (String.eqb k key) eqn:E; simpl; rewrite E; [reflexivity | exact IH].
Qed.

Lemma nullable_setitem_twice (key : string) (v w : Nullable.pyany)
    (d : list (string * Nullable.pyany)) :
  Nullable.dict_setitem key v (Nullable.dict_setitem key w d)
  = Nullable.dict_setitem key v d.
Proof.
  induction d as [| [k u] d IH]; simpl.
  - rewrite String.eqb_refl. reflexivity.
  - destruct (String.eqb k key) eqn:E; simpl; rewrite E; [reflexivity |].
    f_equal. exact IH.
Qed.

Lemma nullable_setitem_same (key : string) (v : Nullable.pyany)
    (d : list (string * Nullable.pyany)) :
  Nullable.dict_get key d = Some v -> Nullable.dict_setitem key v d = d.
Proof.
  induction d as [| [k w] d IH]; simpl; [discriminate |].
  destruct (String.eqb k key) eqn:E.
  - intros [= ->]. reflexivity.
  - intros H. f_equal. by apply IH.
Qed.

Lemma nullable_append_overlaps (primary_symptoms : string) (others : list Candidate) :
  forall (metrics : list (string * Nullable.pyany)) (items : list Nullable.pyany),
    Nullable.dict_get "symptom_overlap" metrics = Some (Nullable.AList items) ->
    Nullable.append_overlaps (Some primary_symptoms) (map to_row others) metrics
    = Done (Nullable.dict_setitem "symptom_overlap"
              (Nullable.AList
                 (items ++ map (fun c => to_any (overlap_entry primary_symptoms c)) others))
              metrics).
Proof.
  induction others as [| disease others IH]; intros metrics items Hget.
  - simpl. rewrite app_nil_r. f_equal. symmetry. by apply nullable_setitem_same.
  - cbn [map Nullable.append_overlaps to_row Nullable.symptoms Nullable.disease_name].
    rewrite !get_of_option. cbn [Nullable.calculate_symptom_overlap].
    rewrite overlap_score_returned. cbn [lift obind].
    unfold Nullable.dict_append. rewrite Hget. cbn [obind].
    erewrite IH by apply nullable_get_setitem_same.
    rewrite nullable_setitem_twice, <- app_assoc. reflexivity.
Qed.

(** On rows without null columns the second model computes what the first
    one does. *)
Lemma nullable_metrics_agree (current_month : Z) (cs : list Candidate) :
  Nullable.calculate_confidence_metrics current_month (map to_row cs)
  = to_outcome (map (fun kv => (fst kv, to_any (snd kv))))
      (calculate_confidence_metrics current_month cs).
Proof.
  destruct cs as [| c0 [| c1 rest]].
  - reflexivity.
  - rewrite metrics_of_one. cbn. rewrite get_of_option. reflexivity.
  - unfold Nullable.calculate_confidence_metrics.
    cbn [map to_row Nullable.similarity Nullable.symptoms Nullable.disease_name
         list_getitem nth_error lift obind length Nat.ltb Nat.leb drop].
    rewrite !get_of_option.
    change (default 0%Q (similarity c0)) with (get_similarity c0).
    change (default 0%Q (similarity c1)) with (get_similarity c1).
    assert (map (fun d => Nullable.get (Nullable.similarity d) 0%Q) (map to_row rest)
            = map Some (map get_similarity rest)) as ->.
    { rewrite !map_map. apply map_ext. intros c. cbn. apply get_of_option. }
    cbn [Nullable.gt_zero Nullable.sub Nullable.div obind Nullable.sum_from].
    rewrite sum_from_values. cbn [obind].
    assert (pydiv (fold_left Qplus (map get_similarity rest) (0 + get_similarity c1)%Q)
              (inject_Z (Z.of_nat (S (length (map Some (map get_similarity rest))))))
            = Ok (mean_similarity (c1 :: rest))) as ->.
    { rewrite pydiv_nonzero by (apply inject_nat_nonzero; lia).
      unfold mean_similarity, pysum. cbn [map length fold_left].
      by rewrite !length_map. }
    cbn [lift obind].
    change (to_row c1 :: map to_row rest) with (map to_row (c1 :: rest)).
    rewrite metrics_of_several. unfold relative_of, clarity_of.
    destruct (Qpositive (get_similarity c1)) eqn:E1;
      destruct (Qpositive (get_similarity c0)) eqn:E0;
      rewrite ?(pydiv_nonzero _ _ (Qpositive_nonzero _ E1));
      cbn [lift obind Nullable.sub Nullable.div];
      rewrite ?(pydiv_nonzero _ _ (Qpositive_nonzero _ E0));
      cbn [lift obind];
      (erewrite nullable_append_overlaps by reflexivity);
      cbn [obind Nullable.calculate_seasonal_relevance Nullable.dict_setitem
           String.eqb Ascii.eqb Bool.eqb to_outcome map fst snd to_any app
           Nullable.of_float];
      rewrite !map_map; reflexivity.
Qed.

Lemma nullable_get_default (key : string) (dflt : pyval) (d : pydict) :
  Nullable.dict_get_default key (to_any dflt) (map (fun kv => (fst kv, to_any (snd kv))) d)
  = to_any (dict_get_default key dflt d).
Proof.
  unfold Nullable.dict_get_default, dict_get_default.
  induction d as [| [k v] d IH]; [reflexivity |].
  cbn [map fst snd Nullable.dict_get dict_get].
  destruct (String.eqb k key); [reflexivity | exact IH].
Qed.

Lemma nullable_alternative_entry (c : Candidate) :
  Nullable.alternative_entry (to_row c) = to_any (alternative_entry c).
Proof.
  unfold Nullable.alternative_entry, alternative_entry, get_similarity. cbn.
  rewrite !get_of_option. reflexivity.
Qed.

Lemma nullable_diagnose_agree (current_month : Z) (clip_load_error : option string)
    (embedding : option (list Q)) (cs : list Candidate) :
  Nullable.diagnose_plant_disease current_month clip_load_error embedding (map to_row cs)
  = to_outcome to_any
      (diagnose_plant_disease current_month clip_load_error embedding cs).
Proof.
  destruct clip_load_error as [details |]; [reflexivity |].
  destruct embedding as [e |]; [| reflexivity].
  destruct cs as [| c0 rest]; [reflexivity |].
  destruct (calculate_confidence_metrics_total current_month (c0 :: rest)) as [d Hd].
  rewrite (diagnose_closed _ _ _ _ _ Hd).
  unfold Nullable.diagnose_plant_disease.
  rewrite nullable_metrics_agree, Hd.
  cbn [map to_outcome obind lift list_getitem nth_error drop].
  rewrite drop_0.
  cbn [to_row Nullable.disease_name Nullable.similarity Nullable.description
       Nullable.symptoms Nullable.recommendation].
  rewrite !get_of_option.
  change (Nullable.AFloat (Fin 0)) with (to_any (PyFloat (Fin 0))).
  change (Nullable.AList []) with (to_any (PyList [])).
  rewrite !nullable_get_default.
  rewrite map_map, (map_ext _ _ nullable_alternative_entry), <- (map_map alternative_entry to_any).
  reflexivity.
Qed.

